(** * Procurement risk monitor: scoring and inference engine

    A shallow embedding of the rule engine ([detect_clear_errors]), the
    recommendation synthesiser ([_generate_action_checklist]), the comparable
    match finder ([_find_comparable_procurements]), the sector benchmark
    aggregator ([_compute_sector_benchmarks]) of [app.py] and of the quality
    rubric ([compute_quality_assessment]) of [scripts/pdf_report.py].

    Conventions of the embedding.
    - Python numbers are rationals ([Q]); comparisons and arithmetic are exact.
      A value that may be [None] is an [option].
    - A Python [dict] that is only read by key is a [gmap]; a [dict] that is
      iterated (the corpus [features_dict]) is an association list in
      insertion order.
    - Strings are [string]s of ASCII characters; [str.lower] and the regular
      expression flags are the ASCII ones.
    - The text of an f-string is kept symbolic: a finding's detail records
      which template was used and the values interpolated into it. *)

From Stdlib Require Import QArith ZArith Lia Lqa Ascii String List Permutation.
From stdpp Require Import gmap strings list fin_maps sorting.

Local Open Scope string_scope.
Local Open Scope list_scope.

(** ** Python values *)

Module Py.

(** [a < b], [a > b], [a >= b], [a == b] on numbers. *)
Definition lt (a b : Q) : bool := negb (Qle_bool b a).
Definition le (a b : Q) : bool := Qle_bool a b.
Definition gt (a b : Q) : bool := lt b a.
Definition ge (a b : Q) : bool := le b a.
Definition eq (a b : Q) : bool := Qeq_bool a b.
Definition ne (a b : Q) : bool := negb (Qeq_bool a b).

(** Truth value of a number: everything but zero. *)
Definition truthy (a : Q) : bool := negb (Qeq_bool a 0).

(** Truth value of an optional number ([None] is false). *)
Definition truthy_opt (a : option Q) : bool :=
  match a with
  | Some v => truthy v
  | None => false
  end.

(** [val and val > c]: the guard used on optional amounts. *)
Definition and_gt (val : option Q) (c : Q) : bool :=
  match val with
  | Some v => truthy v && gt v c
  | None => false
  end.

(** Truth value of a string and of a list: non-empty. *)
Definition str_truthy (s : string) : bool :=
  match s with
  | EmptyString => false
  | String _ _ => true
  end.

Definition list_truthy {A} (l : list A) : bool :=
  match l with
  | [] => false
  | _ :: _ => true
  end.

(** Truth value of a dict: non-empty. *)
Definition dict_truthy {V} (d : gmap string V) : bool :=
  negb (Nat.eqb (size d) 0).

(** [d.get(k, dflt)]. *)
Definition get {V} (d : gmap string V) (k : string) (dflt : V) : V :=
  default dflt (d !! k).

(** [s in (a, b, ...)]. *)
Definition str_in (s : string) (l : list string) : bool :=
  existsb (String.eqb s) l.

(** [s[:n]]. *)
Fixpoint slice_to (n : nat) (s : string) : string :=
  match n, s with
  | O, _ => EmptyString
  | S n', String c s' => String c (slice_to n' s')
  | S _, EmptyString => EmptyString
  end.

Definition is_upper (c : ascii) : bool :=
  (65 <=? nat_of_ascii c)%nat && (nat_of_ascii c <=? 90)%nat.

Definition lower_char (c : ascii) : ascii :=
  if is_upper c then ascii_of_nat (nat_of_ascii c + 32) else c.

(** [s.lower()]. *)
Fixpoint lower (s : string) : string :=
  match s with
  | EmptyString => EmptyString
  | String c s' => String (lower_char c) (lower s')
  end.

Fixpoint startswith (p s : string) : bool :=
  match p, s with
  | EmptyString, _ => true
  | String a p', String b s' => Ascii.eqb a b && startswith p' s'
  | String _ _, EmptyString => false
  end.

(** [p in s] on strings: [p] occurs in [s]. *)
Fixpoint contains (p s : string) : bool :=
  startswith p s
  || match s with
     | EmptyString => false
     | String _ s' => contains p s'
     end.

(** Whitespace for [str.strip] and [\s], on ASCII. *)
Definition is_space (c : ascii) : bool :=
  let n := nat_of_ascii c in
  ((9 <=? n)%nat && (n <=? 13)%nat) || ((28 <=? n)%nat && (n <=? 32)%nat).

(** [s.lstrip(chars)] and [s.rstrip(chars)], the characters given by a test. *)
Fixpoint lstrip_by (p : ascii -> bool) (s : string) : string :=
  match s with
  | EmptyString => EmptyString
  | String c s' => if p c then lstrip_by p s' else s
  end.

Fixpoint rstrip_by (p : ascii -> bool) (s : string) : string :=
  match s with
  | EmptyString => EmptyString
  | String c s' =>
      match rstrip_by p s' with
      | EmptyString => if p c then EmptyString else String c EmptyString
      | r => String c r
      end
  end.

(** [s.strip()]. *)
Definition strip (s : string) : string :=
  lstrip_by is_space (rstrip_by is_space s).

(** [s.find(sep)]: the index of the first occurrence, or -1. *)
Fixpoint find_from (sep s : string) (i : Z) : Z :=
  if startswith sep s then i
  else match s with
       | EmptyString => (-1)%Z
       | String _ s' => find_from sep s' (i + 1)%Z
       end.

Definition find (sep s : string) : Z := find_from sep s 0%Z.

(** [s.rsplit(" ", 1)[0]]: the part before the last space, or all of [s]. *)
Fixpoint before_last_space (s : string) : option string :=
  match s with
  | EmptyString => None
  | String c s' =>
      match before_last_space s' with
      | Some h => Some (String c h)
      | None => if Ascii.eqb c " " then Some EmptyString else None
      end
  end.

Definition rsplit1_head (s : string) : string :=
  default s (before_last_space s).

End Py.

(** ** The fragment of [re] used by the brand catalogue *)

Module Re.

(** Pattern items: [\b], [.], [.*] and a literal character. *)
Inductive item : Type :=
| Boundary
| AnyChar
| AnyStar
| Lit (c : ascii).

(** Reads a pattern written as in the source (a raw string). *)
Fixpoint compile (p : string) : list item :=
  match p with
  | EmptyString => []
  | String "\" (String "b" r) => Boundary :: compile r
  | String "." (String "*" r) => AnyStar :: compile r
  | String "." r => AnyChar :: compile r
  | String c r => Lit c :: compile r
  end.

(** [\w] on ASCII: letters, digits and the underscore. *)
Definition is_word (c : ascii) : bool :=
  let n := nat_of_ascii c in
  ((48 <=? n)%nat && (n <=? 57)%nat)
  || ((65 <=? n)%nat && (n <=? 90)%nat)
  || ((97 <=? n)%nat && (n <=? 122)%nat)
  || (n =? 95)%nat.

Definition is_word_opt (c : option ascii) : bool :=
  match c with
  | Some a => is_word a
  | None => false
  end.

Definition head (s : string) : option ascii :=
  match s with
  | EmptyString => None
  | String c _ => Some c
  end.

(** [\b] holds between [prev] and the rest [s] of the subject. *)
Definition at_boundary (prev : option ascii) (s : string) : bool :=
  xorb (is_word_opt prev) (is_word_opt (head s)).

(** Character equality under [re.IGNORECASE]. *)
Definition eq_ci (a b : ascii) : bool :=
  Ascii.eqb (Py.lower_char a) (Py.lower_char b).

Definition is_newline (c : ascii) : bool := (nat_of_ascii c =? 10)%nat.

(** Matches the items at the current position; [prev] is the character
    before it. Returns the matched text. Quantifiers are greedy and
    backtrack. *)
Fixpoint match_here (p : list item) (prev : option ascii) (s : string)
  : option string :=
  match p with
  | [] => Some EmptyString
  | Boundary :: p' =>
      if at_boundary prev s then match_here p' prev s else None
  | Lit c :: p' =>
      match s with
      | String a s' =>
          if eq_ci a c
          then option_map (String a) (match_here p' (Some a) s')
          else None
      | EmptyString => None
      end
  | AnyChar :: p' =>
      match s with
      | String a s' =>
          if is_newline a
          then None
          else option_map (String a) (match_here p' (Some a) s')
      | EmptyString => None
      end
  | AnyStar :: p' =>
      (fix star (prev : option ascii) (s : string) : option string :=
         match s with
         | String a s' =>
             if is_newline a
             then match_here p' prev s
             else match star (Some a) s' with
                  | Some m => Some (String a m)
                  | None => match_here p' prev s
                  end
         | EmptyString => match_here p' prev s
         end) prev s
  end.

Fixpoint search_from (p : list item) (prev : option ascii) (s : string)
  : option string :=
  match match_here p prev s with
  | Some m => Some m
  | None =>
      match s with
      | String a s' => search_from p (Some a) s'
      | EmptyString => None
      end
  end.

(** [re.search(pattern, s, re.IGNORECASE)], giving [m.group(0)]. *)
Definition search (pattern : string) (s : string) : option string :=
  search_from (compile pattern) None s.

End Re.

(** ** [app.py] *)

Module App.

(** Rule catalogue: id, title and severity (the explanatory paragraph of an
    entry is presentation text and is left out). *)
Definition COMPLIANCE_RULES : list (string * (string * string)) :=
  [ ("non_competitive_high_value",
      ("Non-competitive procedure on high-value contract", "high"));
    ("single_source_works_threshold",
      ("Single-source works above EU threshold", "high"));
    ("price_only_high_services",
      ("Price-only evaluation on high-value services", "medium"));
    ("no_criteria",
      ("No evaluation criteria specified", "high"));
    ("low_competition_buyer",
      ("Buyer has persistently low competition", "medium"));
    ("price_only_disputed_buyer",
      ("Buyer uses price-only despite repeat disputes", "medium"));
    ("brand_name_restriction",
      ("Possible brand-name or vendor-specific restriction", "high"));
    ("missing_buyer",
      ("Missing buyer name", "low")) ].

Fixpoint rule_lookup (rules : list (string * (string * string))) (k : string)
  : option (string * string) :=
  match rules with
  | [] => None
  | (k', v) :: rest => if String.eqb k k' then Some v else rule_lookup rest k
  end.

(** Patterns that suggest brand/vendor-specific procurement. *)
Definition BRAND_PATTERNS : list string :=
  [ "\bSAP\b"; "\bOracle\b"; "\bMicrosoft\b"; "\bSalesforce\b";
    "\bVMware\b"; "\bCisco\b"; "\bIBM\b"; "\bAdobe\b";
    "\bAmazon\b"; "\bAWS\b"; "\bGoogle Cloud\b"; "\bAzure\b";
    "\bApple\b"; "\bDell\b"; "\bHP\b"; "\bLenovo\b";
    "\bSharePoint\b"; "\bDynamics\b"; "\b365\b";
    "\bAutoCAD\b"; "\bArcGIS\b"; "\bQlik\b"; "\bTableau\b";
    "\blitsents"; "\bhooldus.*leping" ].

(** One row of the monthly data frame (also the [monthly_rec] dict). *)
Record row : Type := {
  rhr_id : string;
  buyer_name : option string;
  sector : string;
  procedure_type : string;
  contract_type : string;
  estimated_value : option Q;
  price_weight : option Q;
  quality_weight : option Q;
  stage1_probability : Q
}.

(** The interpolated part of a finding's detail text, per template. *)
Inductive detail : Type :=
| NonCompetitiveDetail (val : option Q) (proc : string)
| WorksThresholdDetail (val : option Q)
| PriceOnlyServicesDetail (val : option Q)
| NoCriteriaDetail
| BrandDetail (matched_text : string) (title_120 : string)
| LowCompetitionDetail (buyer : option string) (sbr : Q) (procurement_count : Q)
| PriceOnlyDisputedDetail (buyer : option string) (price_only_rate : Q)
    (vako_disputes : Q)
| MissingBuyerDetail.

Record flag : Type := {
  flag_rhr_id : string;
  flag_buyer_name : option string;
  flag_sector : string;
  flag_procedure_type : string;
  flag_estimated_value : option Q;
  flag_stage1_probability : Q;
  rule_id : string;
  issue_title : string;
  issue_detail : detail
}.

(** The inline price-only test of [detect_clear_errors]. The division is
    only evaluated behind [total_w > 0]. *)
Definition detect_is_price_only (pw qw : Q) : bool :=
  let total_w := (pw + qw)%Q in
  (Py.eq qw 0 && Py.gt pw 0)
  || (Py.gt total_w 0 && Py.lt (qw / total_w) (1 # 100)).

(** The brand scan: the first pattern that matches gives the one finding
    ([break]). *)
Fixpoint brand_scan (patterns : list string) (title_text : string)
  : list (string * detail) :=
  match patterns with
  | [] => []
  | pattern :: rest =>
      match Re.search pattern title_text with
      | Some matched_text =>
          [ ("brand_name_restriction",
              BrandDetail matched_text (Py.slice_to 120 title_text)) ]
      | None => brand_scan rest title_text
      end
  end.

(** The body of the loop of [detect_clear_errors]: the [issues] of a row. *)
Definition row_issues (r : row) (buyer_profiles : gmap string (gmap string Q))
    (titles_data : gmap string (gmap string string))
  : list (string * detail) :=
  let pw := default 0%Q (price_weight r) in
  let qw := default 0%Q (quality_weight r) in
  let val := estimated_value r in
  let proc := procedure_type r in
  let ctype := contract_type r in
  let buyer := buyer_name r in
  let title_text := Py.get (Py.get titles_data (rhr_id r) ∅) "title" "" in
  (* Procedure issues *)
  let issues := [] in
  let issues :=
    if Py.str_in proc ["neg-wo-call"; "oth-single"]
       && Py.and_gt val 200000
    then issues ++ [("non_competitive_high_value", NonCompetitiveDetail val proc)]
    else issues in
  let issues :=
    if Py.str_in proc ["neg-wo-call"; "oth-single"]
       && String.eqb ctype "works" && Py.and_gt val 5000000
    then issues ++ [("single_source_works_threshold", WorksThresholdDetail val)]
    else issues in
  (* Evaluation criteria issues *)
  let is_price_only := detect_is_price_only pw qw in
  let issues :=
    if is_price_only && Py.and_gt val 500000 && String.eqb ctype "services"
    then issues ++ [("price_only_high_services", PriceOnlyServicesDetail val)]
    else issues in
  let issues :=
    if Py.eq pw 0 && Py.eq qw 0
       && Py.str_in proc ["open"; "restricted"; "neg-w-call"]
    then issues ++ [("no_criteria", NoCriteriaDetail)]
    else issues in
  (* Brand-name / vendor-specific scan *)
  let issues :=
    if Py.str_truthy title_text
    then issues ++ brand_scan BRAND_PATTERNS title_text
    else issues in
  (* Buyer pattern issues *)
  let profile := buyer ≫= (fun b => buyer_profiles !! b) in
  let issues :=
    match profile with
    | Some profile =>
        if Py.dict_truthy profile
           && Py.ge (Py.get profile "procurement_count" 0%Q) 5
        then
          let sbr := Py.get profile "single_bidder_rate" 0%Q in
          let issues :=
            if Py.ge sbr (6 # 10)
               && Py.ge (Py.get profile "procurement_count" 0%Q) 10
            then issues ++
                 [("low_competition_buyer",
                    LowCompetitionDetail buyer sbr
                      (Py.get profile "procurement_count" 0%Q))]
            else issues in
          if Py.ge (Py.get profile "price_only_rate" 0%Q) (95 # 100)
             && Py.ge (Py.get profile "vako_disputes" 0%Q) 2
          then issues ++
               [("price_only_disputed_buyer",
                  PriceOnlyDisputedDetail buyer
                    (Py.get profile "price_only_rate" 0%Q)
                    (Py.get profile "vako_disputes" 0%Q))]
          else issues
        else issues
    | None => issues
    end in
  (* Data quality *)
  let issues :=
    if negb (Py.str_truthy (default "" buyer))
    then issues ++ [("missing_buyer", MissingBuyerDetail)]
    else issues in
  issues.

Definition make_flag (r : row) (issue : string * detail) : flag :=
  let '(rule, det) := issue in
  {| flag_rhr_id := rhr_id r;
     flag_buyer_name := buyer_name r;
     flag_sector := sector r;
     flag_procedure_type := procedure_type r;
     flag_estimated_value := estimated_value r;
     flag_stage1_probability := stage1_probability r;
     rule_id := rule;
     issue_title := fst (default (rule, "medium") (rule_lookup COMPLIANCE_RULES rule));
     issue_detail := det |}.

(** Flags procurements with clear compliance or data issues: the rows of
    the resulting frame, in order. *)
Definition detect_clear_errors (df : list row)
    (buyer_profiles : gmap string (gmap string Q))
    (titles_data : gmap string (gmap string string)) : list flag :=
  flat_map (fun r => map (make_flag r) (row_issues r buyer_profiles titles_data)) df.

(** *** Comparable procurements and benchmarking helpers *)

(** A value of [features_dict]: the encoded features of a record with its
    buyer and model score. A field that is [None] is a missing key. *)
Record feat_rec : Type := {
  features : option (gmap string Q);
  rec_buyer_name : option string;
  rec_stage1_probability : option Q
}.

Record comparable : Type := {
  cmp_rhr_id : string;
  cmp_title : string;
  cmp_buyer : string;
  cmp_value : option Q;
  cmp_disputed : bool;
  cmp_score : Q;
  cmp_price_weight : Q;
  cmp_quality_weight : Q
}.

(** [set(disputes_data.get("disputes", {}).keys())]. *)
Definition dispute_ids (disputes_data : gmap string (gmap string (gmap string string)))
  : gset string :=
  dom (Py.get disputes_data "disputes" ∅).

(** Order of [sort_values(["disputed", "score"], ascending=[False, False])]:
    disputed rows first, then by descending score. *)
Definition cmp_before_eq (a b : comparable) : bool :=
  if Bool.eqb (cmp_disputed a) (cmp_disputed b)
  then Py.ge (cmp_score a) (cmp_score b)
  else cmp_disputed a.

Fixpoint insert_sorted {A} (leb : A -> A -> bool) (x : A) (l : list A) : list A :=
  match l with
  | [] => [x]
  | y :: l' => if leb x y then x :: y :: l' else y :: insert_sorted leb x l'
  end.

(** A stable sort: rows with equal keys keep their order. *)
Definition sort_by {A} (leb : A -> A -> bool) (l : list A) : list A :=
  foldr (insert_sorted leb) [] l.

(** [np.mean] and [np.median] of a non-empty list. *)
Definition np_mean (l : list Q) : Q :=
  (foldr Qplus 0 l / inject_Z (Z.of_nat (length l)))%Q.

Definition np_median (l : list Q) : Q :=
  let s := sort_by Qle_bool l in
  let n := length s in
  if Nat.even n
  then ((nth (n / 2 - 1) s 0 + nth (n / 2) s 0) / 2)%Q
  else nth (n / 2) s 0%Q.

(** The counters of [_compute_sector_benchmarks]. *)
Record bench_acc : Type := {
  values : list Q;
  dispute_count : nat;
  total_count : nat;
  price_only_count : nat;
  quality_weights : list Q
}.

Definition bench_init : bench_acc :=
  {| values := []; dispute_count := 0; total_count := 0;
     price_only_count := 0; quality_weights := [] |}.

(** The inline price-only test of [_compute_sector_benchmarks]. *)
Definition bench_is_price_only (pw qw : Q) : bool :=
  let total_w := (pw + qw)%Q in
  Py.gt total_w 0 && Py.lt (qw / total_w) (1 # 100).

Definition of_nat (n : nat) : Q := inject_Z (Z.of_nat n).

Section WithExp.

(** [np.exp], the exponential of the numeric library. *)
Variable np_exp : Q -> Q.

(** One iteration of the scan of [_find_comparable_procurements]:
    [None] is [continue], [Some] the appended row. *)
Definition comparable_row
    (dispute_ids : gset string)
    (titles_data : gmap string (gmap string string))
    (sector procedure : string) (value : option Q) (exclude_rhr : string)
    (rhr_id : string) (rec : feat_rec) : option comparable :=
  if String.eqb rhr_id exclude_rhr then None else
  let feat := default ∅ (features rec) in
  (* Match sector *)
  if Py.str_truthy sector && Py.ne (Py.get feat ("sector_" +:+ sector) 0%Q) 1
  then None else
  (* Match procedure type *)
  if Py.str_truthy procedure && Py.ne (Py.get feat ("proc_" +:+ procedure) 0%Q) 1
  then None else
  (* Match value bracket (within 3x range) *)
  if Py.truthy_opt value
     && negb (Py.truthy (Py.get feat "value_missing" 1%Q))
     && (let rec_value := np_exp (Py.get feat "log_estimated_value" 0%Q) in
         let value := default 0%Q value in
         Py.lt rec_value (value / 3) || Py.gt rec_value (value * 3))
  then None else
  let disputed := bool_decide (rhr_id ∈ dispute_ids) in
  let rec_value :=
    if negb (Py.truthy (Py.get feat "value_missing" 1%Q))
    then Some (np_exp (Py.get feat "log_estimated_value" 0%Q))
    else None in
  let title_info := Py.get titles_data rhr_id ∅ in
  Some {| cmp_rhr_id := rhr_id;
          cmp_title := Py.slice_to 80 (Py.get title_info "title" "");
          cmp_buyer := Py.get title_info "buyer" (default "" (rec_buyer_name rec));
          cmp_value := rec_value;
          cmp_disputed := disputed;
          cmp_score := default 0%Q (rec_stage1_probability rec);
          cmp_price_weight := Py.get feat "price_weight" 0%Q;
          cmp_quality_weight := Py.get feat "quality_weight" 0%Q |}.

(** Finds similar past procurements and their dispute outcomes. *)
Definition _find_comparable_procurements
    (features_dict : list (string * feat_rec))
    (disputes_data : gmap string (gmap string (gmap string string)))
    (titles_data : gmap string (gmap string string))
    (sector procedure contract_type : string)
    (value : option Q) (exclude_rhr : string) : list comparable :=
  let dispute_ids := dispute_ids disputes_data in
  let rows :=
    omap (fun '(rhr_id, rec) =>
            comparable_row dispute_ids titles_data sector procedure value
              exclude_rhr rhr_id rec) features_dict in
  if negb (Py.list_truthy rows) then [] else
  take 20 (sort_by cmp_before_eq rows).

(** One iteration of the scan of [_compute_sector_benchmarks]. *)
Definition bench_step (dispute_ids : gset string) (sector : string)
    (acc : bench_acc) (item : string * feat_rec) : bench_acc :=
  let '(rhr_id, rec) := item in
  let feat := default ∅ (features rec) in
  if negb (Py.truthy (Py.get feat ("sector_" +:+ sector) 0%Q)) then acc else
  let pw := Py.get feat "price_weight" 0%Q in
  let qw := Py.get feat "quality_weight" 0%Q in
  {| total_count := total_count acc + 1;
     dispute_count :=
       if bool_decide (rhr_id ∈ dispute_ids)
       then dispute_count acc + 1 else dispute_count acc;
     values :=
       if negb (Py.truthy (Py.get feat "value_missing" 1%Q))
       then values acc ++ [np_exp (Py.get feat "log_estimated_value" 0%Q)]
       else values acc;
     price_only_count :=
       if bench_is_price_only pw qw
       then price_only_count acc + 1 else price_only_count acc;
     quality_weights :=
       if Py.gt qw 0 then quality_weights acc ++ [qw] else quality_weights acc |}.

(** Computes average metrics for a sector for benchmarking. The result is
    the returned dict; a value [None] is Python's [None]. *)
Definition _compute_sector_benchmarks
    (features_dict : list (string * feat_rec))
    (disputes_data : gmap string (gmap string (gmap string string)))
    (sector : string) : gmap string (option Q) :=
  let acc := fold_left (bench_step (dispute_ids disputes_data) sector)
               features_dict bench_init in
  if Nat.eqb (total_count acc) 0 then ∅ else
  let total := of_nat (total_count acc) in
  <["total" := Some total]>
  (<["dispute_rate" := Some (of_nat (dispute_count acc) / total)%Q]>
  (<["median_value" :=
       if Py.list_truthy (values acc) then Some (np_median (values acc)) else None]>
  (<["mean_value" :=
       if Py.list_truthy (values acc) then Some (np_mean (values acc)) else None]>
  (<["price_only_rate" :=
       if negb (Nat.eqb (total_count acc) 0)
       then Some (of_nat (price_only_count acc) / total)%Q else Some 0%Q]>
  (<["avg_quality_weight" :=
       if Py.list_truthy (quality_weights acc)
       then Some (np_mean (quality_weights acc)) else Some 0%Q]> ∅))))).

End WithExp.

(** *** Action checklist *)

(** An action: priority, action text, and the value interpolated into the
    rationale text ([None] when the rationale is a fixed text). *)
Definition action_item : Type := string * string * option Q.

(** The inline price-only test of [_generate_action_checklist]. *)
Definition checklist_is_price_only (pw qw : Q) : bool :=
  let total_w := (pw + qw)%Q in
  (Py.eq qw 0 && Py.gt pw 0)
  || (Py.gt total_w 0 && Py.lt (qw / total_w) (1 # 100)).

(** Deduplication by action text, first occurrence kept. *)
Fixpoint dedup (seen : gset string) (actions : list action_item)
  : list action_item :=
  match actions with
  | [] => []
  | (priority, action, rationale) :: rest =>
      if bool_decide (action ∈ seen)
      then dedup seen rest
      else (priority, action, rationale) :: dedup ({[action]} ∪ seen) rest
  end.

(** The [actions] list before deduplication. Each [actions.append] under a
    condition contributes its item, in the order of the source. *)
Definition checklist_actions
    (monthly_rec : option row) (feat_rec : option feat_rec)
    (llm_result : option (gmap string string))
    (profile : option (gmap string Q)) : list action_item :=
  let procedure := from_option procedure_type "" monthly_rec in
  let contract := from_option contract_type "" monthly_rec in
  let sector := from_option sector "" monthly_rec in
  let value := monthly_rec ≫= estimated_value in
  let feat :=
    match feat_rec with
    | Some fr => default ∅ (features fr)
    | None => ∅
    end in
  let pw := Py.get feat "price_weight" 0%Q in
  let qw := Py.get feat "quality_weight" 0%Q in
  (* Value-based recommendations *)
  (if Py.and_gt value 5000000
   then [("HIGH", "Conduct pre-publication legal review of tender documents", value)]
   else [])
  (* Procedure-based recommendations *)
  ++ (if String.eqb procedure "neg-w-call"
      then [("HIGH", "Document justification for negotiated procedure", None)]
      else if Py.str_in procedure ["neg-wo-call"; "oth-single"]
              && Py.and_gt value 200000
      then [("HIGH", "Verify exemption grounds for non-competitive procedure", value)]
      else [])
  (* Evaluation criteria recommendations *)
  ++ (let is_price_only := checklist_is_price_only pw qw in
      if is_price_only && String.eqb contract "services" && Py.and_gt value 200000
      then [("MEDIUM", "Consider adding quality criteria to evaluation", None)]
      else if Py.truthy qw && Py.gt qw (1 # 2)
      then [("MEDIUM", "Ensure quality criteria have detailed scoring methodology",
              Some qw)]
      else [])
  (* LLM-specific recommendations *)
  ++ match llm_result with
     | Some llm =>
         if Py.dict_truthy llm then
           let scenario := Py.lower (Py.get llm "llm_scenario" "") in
           (if Py.contains "qualification" scenario
               || Py.contains "experience" scenario
            then [("MEDIUM", "Review qualification requirements for proportionality",
                    None)]
            else [])
           ++ (if Py.contains "brand" scenario || Py.contains "specific" scenario
               then [("HIGH",
                       "Replace brand-specific requirements with functional specifications",
                       None)]
               else [])
           ++ (if Py.contains "subjective" scenario || Py.contains "vague" scenario
                  || Py.contains "unclear" scenario
               then [("MEDIUM", "Clarify subjective evaluation criteria", None)]
               else [])
         else []
     | None => []
     end
  (* Buyer pattern recommendations *)
  ++ match profile with
     | Some profile =>
         if Py.dict_truthy profile then
           let sbr := Py.get profile "single_bidder_rate" 0%Q in
           (if Py.gt sbr (3 # 10)
            then [("LOW", "Consider market engagement before publication", Some sbr)]
            else [])
           ++ (if Py.ge (Py.get profile "vako_disputes" 0%Q) 3
               then [("MEDIUM", "Review lessons from previous disputes",
                       Some (Py.get profile "vako_disputes" 0%Q))]
               else [])
         else []
     | None => []
     end
  (* Sector-specific *)
  ++ (if String.eqb sector "IT" && Py.and_gt value 1000000
      then [("LOW",
              "Check for unintentional vendor lock-in in technical specifications",
              None)]
      else []).

(** Generates specific actionable recommendations:
    [(priority, action, rationale)]. The argument [contrib_df] is not
    read by the function. *)
Definition _generate_action_checklist
    (monthly_rec : option row) (feat_rec : option feat_rec)
    (llm_result : option (gmap string string))
    (profile : option (gmap string Q))
    (contrib_df : option (list (string * Q))) : list action_item :=
  dedup ∅ (checklist_actions monthly_rec feat_rec llm_result profile).

(** *** Titles *)

Definition is_letter (c : ascii) : bool :=
  let n := nat_of_ascii c in
  ((65 <=? n)%nat && (n <=? 90)%nat) || ((97 <=? n)%nat && (n <=? 122)%nat).

(** Matches a literal at the start, ignoring case; gives the rest. *)
Fixpoint match_prefix_ci (p s : string) : option string :=
  match p, s with
  | EmptyString, _ => Some s
  | String a p', String b s' =>
      if Re.eq_ci b a then match_prefix_ci p' s' else None
  | String _ _, EmptyString => None
  end.

(** [re.sub(r"^Hanke objekt[a-z]* on\s+", "", raw_title, flags=re.IGNORECASE)]:
    the boilerplate prefix is removed when the title starts with it. *)
Definition sub_boilerplate (raw_title : string) : string :=
  match match_prefix_ci "Hanke objekt" raw_title with
  | Some r1 =>
      match match_prefix_ci " on" (Py.lstrip_by is_letter r1) with
      | Some (String c r3) =>
          if Py.is_space c then Py.lstrip_by Py.is_space r3 else raw_title
      | _ => raw_title
      end
  | None => raw_title
  end.

Definition TITLE_SEPARATORS : list string :=
  [ ". "; String "." (String (ascii_of_nat 10) EmptyString); " ning "; " ja " ].

(** The loop over the separators: the first one found at a position [pos]
    with [30 < pos < max_len] gives the cut. *)
Fixpoint first_cut (text : string) (max_len : nat) (seps : list string)
  : option nat :=
  match seps with
  | [] => None
  | sep :: rest =>
      let pos := Py.find sep text in
      if (30 <? pos)%Z && (pos <? Z.of_nat max_len)%Z
      then Some (Z.to_nat pos)
      else first_cut text max_len rest
  end.

Definition is_trailing_punctuation (c : ascii) : bool :=
  Py.str_in (String c EmptyString) ["."; ","; ";"; ":"].

(** Extracts a clean short title from the raw XML description. *)
Definition _clean_title (raw_title : string) (max_len : nat) : string :=
  if negb (Py.str_truthy raw_title) then "" else
  let text := sub_boilerplate raw_title in
  match first_cut text max_len TITLE_SEPARATORS with
  | Some pos => Py.strip (Py.slice_to pos text)
  | None =>
      if (String.length text <=? max_len)%nat then Py.strip text else
      let truncated := Py.rsplit1_head (Py.slice_to max_len text) in
      Py.rstrip_by is_trailing_punctuation truncated +:+ "..."
  end.

(** Looks up a procurement title: [(short_title, full_title)]. *)
Definition _get_procurement_title (rhr_id : string)
    (v3_lookup : gmap string (gmap string string))
    (disputes_data : gmap string (gmap string (gmap string (gmap string string))))
    (titles_data : gmap string (gmap string string)) : string * string :=
  let raw := "" in
  (* Titles file (extracted from XML) has broadest coverage *)
  let t := Py.get titles_data rhr_id ∅ in
  let raw := if Py.str_truthy (Py.get t "title" "") then Py.get t "title" "" else raw in
  let raw :=
    if negb (Py.str_truthy raw) then
      match v3_lookup !! rhr_id with
      | Some v3_rec =>
          if Py.dict_truthy v3_rec then
            let title := Py.get v3_rec "title" "" in
            if Py.str_truthy title && negb (String.eqb title "Unknown")
            then title else raw
          else raw
      | None => raw
      end
    else raw in
  let raw :=
    if negb (Py.str_truthy raw) then
      match Py.get disputes_data "disputes" ∅ !! rhr_id with
      | Some disp_rec =>
          if Py.dict_truthy disp_rec then
            let title := Py.get (Py.get disp_rec "procurement" ∅) "title" "" in
            if Py.str_truthy title then title else raw
          else raw
      | None => raw
      end
    else raw in
  (_clean_title raw 120, raw).

(** *** Fix recommendations *)

Definition TURNOVER_FIX : string :=
  "Review the turnover requirement against the actual contract value. "
  +:+ "RHS § 38 requires qualification criteria to be proportionate. "
  +:+ "Consider reducing the threshold to 1-2x annual contract value, or "
  +:+ "allowing consortia to meet the requirement collectively.".

Definition QUALIFICATION_FIX : string :=
  "Ensure qualification requirements are proportionate to the contract scope. "
  +:+ "Consider whether similar experience requirements are too narrow "
  +:+ "(specific technology, specific client type) and could be broadened "
  +:+ "while still ensuring competence.".

Definition SPECIFICATION_FIX : string :=
  "Review technical specifications for brand-specific or overly narrow requirements. "
  +:+ "Use functional specifications where possible (describe what it should do, not what it should be). "
  +:+ "If a specific standard is referenced, add 'or equivalent'.".

Definition CRITERIA_FIX : string :=
  "Clarify evaluation methodology: specify exactly how quality criteria will be scored, "
  +:+ "what constitutes a high vs low score, and provide the scoring matrix in the tender documents. "
  +:+ "Ambiguous criteria are the most common basis for VAKO challenges.".

Definition BRAND_FIX : string :=
  "Remove brand-specific references or add 'or equivalent' language. "
  +:+ "Specify requirements in terms of functional performance, not manufacturer. "
  +:+ "If a specific brand is genuinely the only option, document the justification.".

Definition PRICE_ONLY_FIX : string :=
  "Consider adding quality criteria to the evaluation. For complex services, "
  +:+ "price-only evaluation risks selecting providers who undercut on quality. "
  +:+ "Even a simple 70/30 price/quality split can improve outcomes.".

Definition GENERIC_FIX : string :=
  "Review this aspect of the procurement documents for compliance with the "
  +:+ "Public Procurement Act (RHS). Consider whether the requirement could be "
  +:+ "reworded to be more proportionate, transparent, or competition-friendly.".

(** Generates a brief fix recommendation based on the issue description. *)
Definition _issue_recommendation (issue_text evidence : string) : string :=
  let issue_lower := Py.lower issue_text in
  if Py.contains "disproportionate" issue_lower
     && Py.contains "turnover" issue_lower
  then TURNOVER_FIX
  else if Py.contains "disproportionate" issue_lower
          && (Py.contains "qualification" issue_lower
              || Py.contains "experience" issue_lower)
  then QUALIFICATION_FIX
  else if Py.contains "restrictive" issue_lower
          && (Py.contains "specification" issue_lower
              || Py.contains "technical" issue_lower)
  then SPECIFICATION_FIX
  else if Py.contains "unclear" issue_lower && Py.contains "criteria" issue_lower
  then CRITERIA_FIX
  else if Py.contains "brand" issue_lower || Py.contains "vendor" issue_lower
          || Py.contains "lock" issue_lower
  then BRAND_FIX
  else if Py.contains "price" issue_lower && Py.contains "only" issue_lower
  then PRICE_ONLY_FIX
  else GENERIC_FIX.

(** *** Risk tiers *)

Definition risk_color (score : Q) : string :=
  if Py.ge score (15 # 100) then "#d32f2f"
  else if Py.ge score (8 # 100) then "#f57c00"
  else if Py.ge score (4 # 100) then "#fbc02d"
  else "#388e3c".

Definition risk_label (score : Q) : string :=
  if Py.ge score (15 # 100) then "High"
  else if Py.ge score (8 # 100) then "Elevated"
  else if Py.ge score (4 # 100) then "Moderate"
  else "Low".

End App.

(** ** [scripts/pdf_report.py] *)

Module PdfReport.

Local Open Scope Z_scope.

(** A dimension of the assessment. The [finding] and [explanation] texts of
    the source are presentation and are not part of the embedding. *)
Record dimension : Type := {
  score : Z;
  max : Z
}.

Record quality_assessment : Type := {
  overall_score : Z;
  summary : string;
  dimensions : list (string * dimension)
}.

(** [max(0, min(20, s))]. *)
Definition clamp (s : Z) : Z := Z.max 0 (Z.min 20 s).

(** [10 ** x >= c] for an integer [c >= 1]. With [x = p/q] the real number
    [10 ** x] is the positive root [d] of [d^q = 10^p], so the comparison
    is decided on integers: [d >= c] iff [10^p >= c^q] (for [p < 0] the
    integer power is 0 and [d < 1 <= c]). *)
Definition pow10_ge (x : Q) (c : Z) : bool :=
  c ^ Zpos (Qden x) <=? 10 ^ Qnum x.

(** The inline price-only test of [compute_quality_assessment]. *)
Definition rubric_is_price_only (pw qw : Q) : bool :=
  let total_w := (pw + qw)%Q in
  (Py.eq qw 0 && Py.gt pw 0)
  || (Py.gt total_w 0 && Py.lt (qw / total_w) (1 # 100)).

(** 1. Competition & Access *)
Definition score_1 (features : gmap string Q) (procedure : string) : Z :=
  let score_1 := 10 in
  let score_1 :=
    if String.eqb procedure "open" then score_1 + 5
    else if String.eqb procedure "restricted" then score_1 + 3
    else if Py.str_in procedure ["neg-wo-call"; "oth-single"] then score_1 - 8
    else if String.eqb procedure "neg-w-call" then score_1 - 2
    else score_1 in
  let tenders := Py.get features "tenders_received" (-1)%Q in
  let score_1 :=
    if Py.ge tenders 5 then score_1 + 5
    else if Py.ge tenders 3 then score_1 + 3
    else if Py.eq tenders 1 && Py.ne tenders (-1) then score_1 - 5
    else score_1 in
  clamp score_1.

(** 2. Criteria Quality *)
Definition score_2 (features : gmap string Q) (contract_type : string) : Z :=
  let pw := Py.get features "price_weight" 0%Q in
  let qw := Py.get features "quality_weight" 0%Q in
  let total_w := (pw + qw)%Q in
  let score_2 := 10 in
  let is_price_only := rubric_is_price_only pw qw in
  let score_2 :=
    if is_price_only then
      if String.eqb contract_type "services" then score_2 - 6 else score_2 - 2
    else if Py.gt total_w 0 && Py.ge (qw / total_w) (3 # 10) then score_2 + 5
    else if Py.gt total_w 0 && Py.ge (qw / total_w) (1 # 10) then score_2 + 2
    else score_2 in
  let score_2 :=
    if Py.eq pw 0 && Py.eq qw 0 then score_2 - 4 else score_2 in
  clamp score_2.

(** 3. Strategic Value *)
Definition score_3 (features : gmap string Q) : Z :=
  let score_3 := 8 in
  let strategic : list string := [] in
  let '(score_3, strategic) :=
    if Py.truthy_opt (features !! "has_green")
    then (score_3 + 4, strategic ++ ["environmental"])
    else (score_3, strategic) in
  let '(score_3, strategic) :=
    if Py.truthy_opt (features !! "has_social")
    then (score_3 + 4, strategic ++ ["social"])
    else (score_3, strategic) in
  let '(score_3, strategic) :=
    if Py.truthy_opt (features !! "has_innovation")
    then (score_3 + 5, strategic ++ ["innovation"])
    else (score_3, strategic) in
  let score_3 :=
    if Py.list_truthy strategic then score_3 else score_3 - 3 in
  clamp score_3.

(** 4. Transparency *)
Definition score_4 (features : gmap string Q) : Z :=
  let score_4 := 12 in
  let score_4 :=
    if negb (Py.truthy (Py.get features "value_missing" 0%Q))
    then score_4 + 3
    else score_4 - 4 in
  let score_4 :=
    if negb (Py.truthy (Py.get features "deadline_missing" 0%Q)) then
      let deadline_days := Py.get features "log_deadline_days" (-1)%Q in
      if Py.gt deadline_days 0 then
        (* days = 10 ** deadline_days *)
        if pow10_ge deadline_days 30 then score_4 + 3
        else if pow10_ge deadline_days 15 then score_4 + 1
        else score_4 - 3
      else score_4
    else score_4 in
  clamp score_4.

(** The loop over the integrity flags [(name, description, severity)]. *)
Definition flag_penalty (score_5 : Z) (flag : string * string * string) : Z :=
  let '(_, _, severity) := flag in
  if Py.str_in severity ["high"; "HIGH"] then score_5 - 6
  else if Py.str_in severity ["medium"; "MEDIUM"] then score_5 - 3
  else score_5.

(** 5. Integrity & Governance *)
Definition score_5 (buyer_profile : option (gmap string Q))
    (integrity_flags : list (string * string * string)) : Z :=
  let score_5 := 16 in
  let score_5 :=
    if Py.list_truthy integrity_flags
    then fold_left flag_penalty integrity_flags score_5
    else score_5 in
  let score_5 :=
    match buyer_profile with
    | Some buyer_profile =>
        if Py.dict_truthy buyer_profile then
          let score_5 :=
            if Py.ge (Py.get buyer_profile "vako_disputes" 0%Q) 3
            then score_5 - 3 else score_5 in
          if Py.gt (Py.get buyer_profile "single_bidder_rate" 0%Q) (1 # 2)
          then score_5 - 2 else score_5
        else score_5
    | None => score_5
    end in
  clamp score_5.

(** [sum(d["score"] for d in dimensions.values())] *)
Definition sum_scores (dimensions : list (string * dimension)) : Z :=
  fold_left (fun acc d => acc + score (snd d)) dimensions 0.

(** Computes a procurement quality score (0-100) across 5 dimensions. *)
Definition compute_quality_assessment
    (features : gmap string Q) (procedure contract_type sector : string)
    (buyer_profile : option (gmap string Q))
    (integrity_flags : list (string * string * string)) : quality_assessment :=
  let dimensions :=
    [ ("Competition & Access",
        {| score := score_1 features procedure; max := 20 |});
      ("Criteria Quality",
        {| score := score_2 features contract_type; max := 20 |});
      ("Strategic Value",
        {| score := score_3 features; max := 20 |});
      ("Transparency",
        {| score := score_4 features; max := 20 |});
      ("Integrity & Governance",
        {| score := score_5 buyer_profile integrity_flags; max := 20 |}) ] in
  let overall := sum_scores dimensions in
  let summary :=
    if 80 <=? overall
    then "This procurement demonstrates strong practices across all dimensions."
    else if 60 <=? overall
    then "Good foundation with specific areas for improvement identified below."
    else if 40 <=? overall
    then "Several dimensions need attention. Review recommendations carefully."
    else "Significant improvements needed across multiple dimensions." in
  {| overall_score := overall; summary := summary; dimensions := dimensions |}.

(** The Transparency rule in the words of the specification: base 12;
    value published +3, else -4; a known deadline (given by the base-10
    logarithm [x] of its length in days) adds +3 at 30 days or more, +1 at
    15 days or more, -3 below; an unknown deadline adds nothing; the result
    is clamped to [0, 20]. *)
Definition transparency_spec (value_published : bool)
    (deadline : option Q) : Z :=
  clamp (12
         + (if value_published then 3 else -4)
         + match deadline with
           | Some x =>
               if pow10_ge x 30 then 3
               else if pow10_ge x 15 then 1
               else -3
           | None => 0
           end).

Definition value_published (features : gmap string Q) : bool :=
  negb (Py.truthy (Py.get features "value_missing" 0%Q)).

Definition deadline_known (features : gmap string Q) : bool :=
  negb (Py.truthy (Py.get features "deadline_missing" 0%Q)).

(** *** Report colours *)

Definition GREEN : Z * Z * Z := (22, 163, 74).
Definition LIGHT_GREEN : Z * Z * Z := (220, 252, 231).
Definition AMBER : Z * Z * Z := (245, 158, 11).
Definition LIGHT_AMBER : Z * Z * Z := (254, 243, 199).
Definition RED : Z * Z * Z := (220, 38, 38).
Definition LIGHT_RED : Z * Z * Z := (254, 226, 226).

Definition _severity_color (severity : string)
  : (Z * Z * Z) * (Z * Z * Z) :=
  if Py.str_in severity ["high"; "HIGH"] then (RED, LIGHT_RED)
  else if Py.str_in severity ["medium"; "MEDIUM"] then (AMBER, LIGHT_AMBER)
  else (GREEN, LIGHT_GREEN).

(** *** Legal compliance checklist *)

(** [10 ** x > c] for an integer [c >= 1], decided like [pow10_ge]. *)
Definition pow10_gt (x : Q) (c : Z) : bool :=
  c ^ Zpos (Qden x) <? 10 ^ Qnum x.

(** The explanation of a review item: its template with the values
    interpolated into it. *)
Inductive review_note : Type :=
| NonCompetitiveAboveThreshold
| NonCompetitiveWithinRange
| OpenProcedureNote
| OtherProcedureNote (procedure : string)
| PriceOnlyHighValueServices
| NoWeightsDetected
| CriteriaDefined (pw qw : Q)
| ValueNotPublished
| ValueIsPublished
| DeadlineMayBeInsufficient (log_days : Q)
| DeadlineAdequate (log_days : Q)
| DeadlineNotAvailable
| StrategicIncluded (strategic : list string)
| StrategicMissing.

Definition review_item : Type := string * string * review_note.

(** The inline price-only test of [_build_compliance_review]. *)
Definition review_is_price_only (pw qw : Q) : bool :=
  let total_w := (pw + qw)%Q in
  (Py.eq qw 0 && Py.gt pw 0)
  || (Py.gt total_w 0 && Py.lt (qw / total_w) (1 # 100)).

(** [value]: the base-10 logarithm of the estimated value when it is
    positive, [None] otherwise. *)
Definition review_value (features : gmap string Q) : option Q :=
  if Py.gt (Py.get features "log_estimated_value" (-1)%Q) 0
  then Some (Py.get features "log_estimated_value" 0%Q)
  else None.

(** [value and value > c], with [value = 10 ** x]. *)
Definition review_value_gt (value : option Q) (c : Z) : bool :=
  match value with
  | Some x => pow10_gt x c
  | None => false
  end.

(** Builds a legal compliance checklist: [(title, status, explanation)]. *)
Definition _build_compliance_review (features : gmap string Q)
    (procedure contract_type sector : string) : list review_item :=
  let pw := Py.get features "price_weight" 0%Q in
  let qw := Py.get features "quality_weight" 0%Q in
  let value := review_value features in
  (* 1. Procedure appropriateness *)
  (if Py.str_in procedure ["neg-wo-call"; "oth-single"] then
     if review_value_gt value 200000
     then [("Procedure selection (RHS 49)", "warning", NonCompetitiveAboveThreshold)]
     else [("Procedure selection (RHS 49)", "pass", NonCompetitiveWithinRange)]
   else if String.eqb procedure "open"
   then [("Procedure selection (RHS 49)", "pass", OpenProcedureNote)]
   else [("Procedure selection (RHS 49)", "pass", OtherProcedureNote procedure)])
  (* 2. Evaluation criteria *)
  ++ (let is_price_only := review_is_price_only pw qw in
      if is_price_only && String.eqb contract_type "services"
         && review_value_gt value 200000
      then [("Evaluation criteria (RHS 85)", "warning", PriceOnlyHighValueServices)]
      else if Py.eq pw 0 && Py.eq qw 0
      then [("Evaluation criteria (RHS 85)", "warning", NoWeightsDetected)]
      else [("Evaluation criteria (RHS 85)", "pass", CriteriaDefined pw qw)])
  (* 3. Value publication *)
  ++ (if Py.truthy (Py.get features "value_missing" 0%Q)
      then [("Estimated value publication (RHS 23)", "warning", ValueNotPublished)]
      else [("Estimated value publication (RHS 23)", "pass", ValueIsPublished)])
  (* 4. Deadline adequacy *)
  ++ (let deadline_days := Py.get features "log_deadline_days" (-1)%Q in
      if Py.gt deadline_days 0 then
        (* days = 10 ** deadline_days *)
        if negb (pow10_ge deadline_days 15) && String.eqb procedure "open"
        then [("Submission deadline (RHS 93)", "warning",
                DeadlineMayBeInsufficient deadline_days)]
        else [("Submission deadline (RHS 93)", "pass",
                DeadlineAdequate deadline_days)]
      else [("Submission deadline (RHS 93)", "pass", DeadlineNotAvailable)])
  (* 5. Strategic criteria *)
  ++ (let has_any_strategic :=
        Py.truthy_opt (features !! "has_green")
        || Py.truthy_opt (features !! "has_social")
        || Py.truthy_opt (features !! "has_innovation") in
      if has_any_strategic then
        let strategic :=
          (if Py.truthy_opt (features !! "has_green") then ["environmental"] else [])
          ++ (if Py.truthy_opt (features !! "has_social") then ["social"] else [])
          ++ (if Py.truthy_opt (features !! "has_innovation") then ["innovation"]
              else []) in
        [("Strategic procurement (RHS 77-79)", "pass", StrategicIncluded strategic)]
      else if review_value_gt value 500000
      then [("Strategic procurement (RHS 77-79)", "warning", StrategicMissing)]
      else []).

End PdfReport.

(** ** Proof devices: the findings of a row, by group of rules

    The groups follow the comments of [detect_clear_errors]; the loop body
    is their concatenation ([row_issues_parts] below). *)

Module Parts.
Import App.

Definition procedure_issues (r : row) : list (string * detail) :=
  (if Py.str_in (procedure_type r) ["neg-wo-call"; "oth-single"]
      && Py.and_gt (estimated_value r) 200000
   then [("non_competitive_high_value",
           NonCompetitiveDetail (estimated_value r) (procedure_type r))]
   else [])
  ++ (if Py.str_in (procedure_type r) ["neg-wo-call"; "oth-single"]
         && String.eqb (contract_type r) "works"
         && Py.and_gt (estimated_value r) 5000000
      then [("single_source_works_threshold",
              WorksThresholdDetail (estimated_value r))]
      else []).

Definition criteria_issues (r : row) : list (string * detail) :=
  let pw := default 0%Q (price_weight r) in
  let qw := default 0%Q (quality_weight r) in
  (if detect_is_price_only pw qw && Py.and_gt (estimated_value r) 500000
      && String.eqb (contract_type r) "services"
   then [("price_only_high_services",
           PriceOnlyServicesDetail (estimated_value r))]
   else [])
  ++ (if Py.eq pw 0 && Py.eq qw 0
         && Py.str_in (procedure_type r) ["open"; "restricted"; "neg-w-call"]
      then [("no_criteria", NoCriteriaDetail)]
      else []).

Definition title_of (r : row) (titles_data : gmap string (gmap string string))
  : string :=
  Py.get (Py.get titles_data (rhr_id r) ∅) "title" "".

Definition brand_issues (r : row)
    (titles_data : gmap string (gmap string string)) : list (string * detail) :=
  if Py.str_truthy (title_of r titles_data)
  then brand_scan BRAND_PATTERNS (title_of r titles_data)
  else [].

Definition profile_of (r : row) (buyer_profiles : gmap string (gmap string Q))
  : option (gmap string Q) :=
  buyer_name r ≫= (fun b => buyer_profiles !! b).

Definition profile_active (profile : gmap string Q) : bool :=
  Py.dict_truthy profile && Py.ge (Py.get profile "procurement_count" 0%Q) 5.

Definition buyer_issues (r : row)
    (buyer_profiles : gmap string (gmap string Q)) : list (string * detail) :=
  match profile_of r buyer_profiles with
  | Some profile =>
      if profile_active profile then
        (if Py.ge (Py.get profile "single_bidder_rate" 0%Q) (6 # 10)
            && Py.ge (Py.get profile "procurement_count" 0%Q) 10
         then [("low_competition_buyer",
                 LowCompetitionDetail (buyer_name r)
                   (Py.get profile "single_bidder_rate" 0%Q)
                   (Py.get profile "procurement_count" 0%Q))]
         else [])
        ++ (if Py.ge (Py.get profile "price_only_rate" 0%Q) (95 # 100)
               && Py.ge (Py.get profile "vako_disputes" 0%Q) 2
            then [("price_only_disputed_buyer",
                    PriceOnlyDisputedDetail (buyer_name r)
                      (Py.get profile "price_only_rate" 0%Q)
                      (Py.get profile "vako_disputes" 0%Q))]
            else [])
      else []
  | None => []
  end.

Definition data_issues (r : row) : list (string * detail) :=
  if negb (Py.str_truthy (default "" (buyer_name r)))
  then [("missing_buyer", MissingBuyerDetail)]
  else [].

(** The rule ids found for one record. *)
Definition findings (r : row) (buyer_profiles : gmap string (gmap string Q))
    (titles_data : gmap string (gmap string string)) : list string :=
  map rule_id (detect_clear_errors [r] buyer_profiles titles_data).

Definition is_rule (rule : string) (f : flag) : bool :=
  String.eqb (rule_id f) rule.

(** A record matches the sector of a benchmark. *)
Definition in_sector (sector : string) (item : string * feat_rec) : bool :=
  Py.truthy (Py.get (default ∅ (features (snd item))) ("sector_" +:+ sector) 0%Q).

(** The action texts of a checklist. *)
Definition action_text (a : action_item) : string := snd (fst a).

(** The features read by [_generate_action_checklist]. *)
Definition checklist_feat (feat_rec : option feat_rec) : gmap string Q :=
  match feat_rec with
  | Some fr => default ∅ (features fr)
  | None => ∅
  end.

(** The guard of the price-only branch of [_generate_action_checklist]. *)
Definition price_only_branch (monthly_rec : option row)
    (feat_rec : option feat_rec) : bool :=
  checklist_is_price_only
    (Py.get (checklist_feat feat_rec) "price_weight" 0%Q)
    (Py.get (checklist_feat feat_rec) "quality_weight" 0%Q)
  && String.eqb (from_option contract_type "" monthly_rec) "services"
  && Py.and_gt (monthly_rec ≫= estimated_value) 200000.

Definition scoring_methodology : string :=
  "Ensure quality criteria have detailed scoring methodology".

(** The groups of [checklist_actions], in the order of the source. *)
Definition value_actions (value : option Q) : list action_item :=
  if Py.and_gt value 5000000
  then [("HIGH", "Conduct pre-publication legal review of tender documents", value)]
  else [].

Definition procedure_actions (procedure : string) (value : option Q)
  : list action_item :=
  if String.eqb procedure "neg-w-call"
  then [("HIGH", "Document justification for negotiated procedure", None)]
  else if Py.str_in procedure ["neg-wo-call"; "oth-single"]
          && Py.and_gt value 200000
  then [("HIGH", "Verify exemption grounds for non-competitive procedure", value)]
  else [].

Definition criteria_actions (pw qw : Q) (contract : string) (value : option Q)
  : list action_item :=
  if checklist_is_price_only pw qw && String.eqb contract "services"
     && Py.and_gt value 200000
  then [("MEDIUM", "Consider adding quality criteria to evaluation", None)]
  else if Py.truthy qw && Py.gt qw (1 # 2)
  then [("MEDIUM", scoring_methodology, Some qw)]
  else [].

Definition llm_actions (llm_result : option (gmap string string))
  : list action_item :=
  match llm_result with
  | Some llm =>
      if Py.dict_truthy llm then
        let scenario := Py.lower (Py.get llm "llm_scenario" "") in
        (if Py.contains "qualification" scenario
            || Py.contains "experience" scenario
         then [("MEDIUM", "Review qualification requirements for proportionality",
                 None)]
         else [])
        ++ (if Py.contains "brand" scenario || Py.contains "specific" scenario
            then [("HIGH",
                    "Replace brand-specific requirements with functional specifications",
                    None)]
            else [])
        ++ (if Py.contains "subjective" scenario || Py.contains "vague" scenario
               || Py.contains "unclear" scenario
            then [("MEDIUM", "Clarify subjective evaluation criteria", None)]
            else [])
      else []
  | None => []
  end.

Definition buyer_actions (profile : option (gmap string Q)) : list action_item :=
  match profile with
  | Some profile =>
      if Py.dict_truthy profile then
        (if Py.gt (Py.get profile "single_bidder_rate" 0%Q) (3 # 10)
         then [("LOW", "Consider market engagement before publication",
                 Some (Py.get profile "single_bidder_rate" 0%Q))]
         else [])
        ++ (if Py.ge (Py.get profile "vako_disputes" 0%Q) 3
            then [("MEDIUM", "Review lessons from previous disputes",
                    Some (Py.get profile "vako_disputes" 0%Q))]
            else [])
      else []
  | None => []
  end.

Definition sector_actions (sector : string) (value : option Q)
  : list action_item :=
  if String.eqb sector "IT" && Py.and_gt value 1000000
  then [("LOW",
          "Check for unintentional vendor lock-in in technical specifications",
          None)]
  else [].

(** [assessment["dimensions"][name]["score"]]. *)
Fixpoint dimension_lookup (name : string)
    (dimensions : list (string * PdfReport.dimension)) : option Z :=
  match dimensions with
  | [] => None
  | (k, d) :: rest =>
      if String.eqb k name then Some (PdfReport.score d)
      else dimension_lookup name rest
  end.

(** The deadline of a record as the specification reads it (known whenever
    the feature [deadline_missing] is unset), and as the code reads it (known
    and with a positive logarithm). Both are base-10 logarithms of days. *)
Definition deadline_as_specified (features : gmap string Q) : option Q :=
  if PdfReport.deadline_known features
  then Some (Py.get features "log_deadline_days" (-1)%Q)
  else None.

Definition deadline_as_coded (features : gmap string Q) : option Q :=
  if PdfReport.deadline_known features
     && Py.gt (Py.get features "log_deadline_days" (-1)%Q) 0
  then Some (Py.get features "log_deadline_days" (-1)%Q)
  else None.

Definition dimension_score (name : string) (qa : PdfReport.quality_assessment)
  : option Z :=
  dimension_lookup name (PdfReport.dimensions qa).

(** The penalty of one integrity flag in the Integrity dimension. *)
Definition flag_weight (flag : string * string * string) : Z :=
  let '(_, _, severity) := flag in
  if Py.str_in severity ["high"; "HIGH"] then 6%Z
  else if Py.str_in severity ["medium"; "MEDIUM"] then 3%Z
  else 0%Z.

(** The titles and the statuses of a compliance review. *)
Definition review_titles (items : list PdfReport.review_item) : list string :=
  map (fun i => fst (fst i)) items.

Definition review_status (title : string) (items : list PdfReport.review_item)
  : option string :=
  snd <$> (fst <$> List.find (fun i => String.eqb (fst (fst i)) title) items).

(** Some strategic criterion (green, social, innovation) is present. *)
Definition any_strategic (features : gmap string Q) : bool :=
  Py.truthy_opt (features !! "has_green")
  || Py.truthy_opt (features !! "has_social")
  || Py.truthy_opt (features !! "has_innovation").

(** The tiers of [risk_label], from the lowest. *)
Definition tier_rank (label : string) : nat :=
  if String.eqb label "High" then 3
  else if String.eqb label "Elevated" then 2
  else if String.eqb label "Moderate" then 1
  else 0.

(** The colour that goes with a tier. *)
Definition tier_color (label : string) : string :=
  if String.eqb label "High" then "#d32f2f"
  else if String.eqb label "Elevated" then "#f57c00"
  else if String.eqb label "Moderate" then "#fbc02d"
  else "#388e3c".

(** A row ranks before another in the result of the match finder: disputed
    rows first, then the higher score. *)
Definition ranks_before (a b : comparable) : Prop :=
  cmp_before_eq a b = true.

(** The features of a corpus record. *)
Definition feat_of (rec : feat_rec) : gmap string Q := default ∅ (features rec).

(** The value of a corpus record is known. *)
Definition value_known (rec : feat_rec) : bool :=
  negb (Py.truthy (Py.get (feat_of rec) "value_missing" 1%Q)).

(** The counters that the scan keeps below the total. *)
Definition bench_inv (acc : bench_acc) : Prop :=
  dispute_count acc <= total_count acc
  /\ price_only_count acc <= total_count acc
  /\ length (values acc) <= total_count acc
  /\ Forall (fun qw => (0 < qw)%Q) (quality_weights acc).

(** A record counts for the value statistics of a sector benchmark. *)
Definition valued_in_sector (sector : string) (item : string * feat_rec) : bool :=
  in_sector sector item && value_known (snd item).

(** The action texts in the order in which [_generate_action_checklist]
    generates them. *)
Definition ACTION_ORDER : list string :=
  [ "Conduct pre-publication legal review of tender documents";
    "Document justification for negotiated procedure";
    "Verify exemption grounds for non-competitive procedure";
    "Consider adding quality criteria to evaluation";
    scoring_methodology;
    "Review qualification requirements for proportionality";
    "Replace brand-specific requirements with functional specifications";
    "Clarify subjective evaluation criteria";
    "Consider market engagement before publication";
    "Review lessons from previous disputes";
    "Check for unintentional vendor lock-in in technical specifications" ].

(** The rule ids in the order in which [detect_clear_errors] evaluates them. *)
Definition RULE_ORDER : list string :=
  [ "non_competitive_high_value"; "single_source_works_threshold";
    "price_only_high_services"; "no_criteria"; "brand_name_restriction";
    "low_competition_buyer"; "price_only_disputed_buyer"; "missing_buyer" ].

End Parts.

(** ** The embedding at work *)

Section Examples.
Import App Parts.

Example search_ignores_case :
  Re.search "\bSAP\b" "uus (sap) liides" = Some "sap".
Proof. reflexivity. Qed.

Example search_needs_word_boundary :
  Re.search "\bSAP\b" "SAPlings and sapwood" = None.
Proof. reflexivity. Qed.

Example search_open_ended_pattern :
  Re.search "\blitsents" "Tarkvara litsentside ost" = Some "litsents".
Proof. reflexivity. Qed.

Example search_star_is_greedy :
  Re.search "\bhooldus.*leping" "IT hooldus ja leping, uus leping 2" =
  Some "hooldus ja leping, uus leping".
Proof. reflexivity. Qed.

Example brand_scan_first_pattern_wins :
  brand_scan BRAND_PATTERNS "Oracle to SAP migration" =
  [("brand_name_restriction", BrandDetail "SAP" "Oracle to SAP migration")].
Proof. reflexivity. Qed.

(** A buyer with 12 procurements and single-bidder rate 0.7 is flagged for
    low competition; with 4 procurements it is not. *)
Example low_competition_buyer_threshold :
  let r := {| rhr_id := "R0"; buyer_name := Some "Vald"; sector := "transport";
              procedure_type := "open"; contract_type := "services";
              estimated_value := Some 80000%Q; price_weight := Some 50%Q;
              quality_weight := Some 50%Q; stage1_probability := (1 # 25)%Q |} in
  let profile (n : Q) : gmap string Q :=
    {[ "procurement_count" := n; "single_bidder_rate" := (7 # 10)%Q ]} in
  findings r {[ "Vald" := profile 12%Q ]} ∅ = ["low_competition_buyer"]
  /\ findings r {[ "Vald" := profile 4%Q ]} ∅ = [].
Proof. split; reflexivity. Qed.

Example comparables_disputed_first :
  let rec (score : Q) : feat_rec :=
    {| features := Some {[ "sector_IT" := 1%Q ]};
       rec_buyer_name := Some "Amet"; rec_stage1_probability := Some score |} in
  map cmp_rhr_id
    (_find_comparable_procurements (fun x => x)
       [("A", rec (1 # 10)%Q); ("B", rec (3 # 10)%Q); ("C", rec (2 # 10)%Q);
        ("D", rec (9 # 10)%Q)]
       {[ "disputes" := {[ "A" := ∅ ]} ]} ∅ "IT" "" "services" None "D")
  = ["A"; "B"; "C"].
Proof. reflexivity. Qed.

Example ten_to_the_power :
  PdfReport.pow10_ge (3 # 2) 30 = true       (* 10 ** 1.5  = 31.6 *)
  /\ PdfReport.pow10_ge (147 # 100) 30 = false (* 10 ** 1.47 = 29.5 *)
  /\ PdfReport.pow10_ge (147 # 100) 15 = true
  /\ PdfReport.pow10_ge 1 15 = false.
Proof. repeat split. Qed.

Example transparency_scores :
  PdfReport.score_4 {[ "log_deadline_days" := (3 # 2)%Q ]} = 18%Z
  /\ PdfReport.score_4 {[ "log_deadline_days" := 1%Q; "value_missing" := 1%Q ]} = 5%Z
  /\ PdfReport.score_4 {[ "deadline_missing" := 1%Q ]} = 15%Z.
Proof. repeat split. Qed.

End Examples.

(** ** Facts about the Python layer *)

Section PyFacts.

Local Open Scope Q_scope.

Lemma gt_spec (a b : Q) : Py.gt a b = true <-> b < a.
Proof.
  unfold Py.gt, Py.lt. rewrite negb_true_iff.
  split.
  - intros H. apply Qnot_le_lt. intros Hle.
    apply Qle_bool_iff in Hle. congruence.
  - intros H. destruct (Qle_bool a b) eqn:E; [|reflexivity].
    apply Qle_bool_iff in E. exfalso. apply (Qlt_irrefl b).
    eapply Qlt_le_trans; eauto.
Qed.

Lemma lt_spec (a b : Q) : Py.lt a b = true <-> a < b.
Proof. apply (gt_spec b a). Qed.

Lemma ge_spec (a b : Q) : Py.ge a b = true <-> b <= a.
Proof. unfold Py.ge, Py.le. apply Qle_bool_iff. Qed.

Lemma eq_spec (a b : Q) : Py.eq a b = true <-> a == b.
Proof. unfold Py.eq. apply Qeq_bool_iff. Qed.

Lemma truthy_spec (a : Q) : Py.truthy a = true <-> ~ a == 0.
Proof.
  unfold Py.truthy. rewrite negb_true_iff. split.
  - intros H E. apply Qeq_bool_iff in E. congruence.
  - intros H. destruct (Qeq_bool a 0) eqn:E; [|reflexivity].
    apply Qeq_bool_iff in E. contradiction.
Qed.

Lemma and_gt_spec (val : option Q) (c : Q) :
  0 <= c ->
  (Py.and_gt val c = true <-> exists v, val = Some v /\ c < v).
Proof.
  intros Hc. destruct val as [v|]; simpl.
  - rewrite andb_true_iff, truthy_spec, gt_spec. split.
    + intros [_ H]. eauto.
    + intros (v' & [= <-] & H). split; [|assumption].
      intros E. rewrite E in H. apply (Qlt_irrefl c).
      eapply Qlt_le_trans; eauto.
  - split; [discriminate|]. intros (v & [=] & _).
Qed.

Lemma dict_truthy_lookup {V} (d : gmap string V) (k : string) (v : V) :
  d !! k = Some v -> Py.dict_truthy d = true.
Proof.
  intros H. unfold Py.dict_truthy. rewrite negb_true_iff, Nat.eqb_neq.
  intros Hsz. apply map_size_empty_iff in Hsz. subst d.
  rewrite lookup_empty in H. discriminate.
Qed.

Lemma get_pos_truthy (d : gmap string Q) (k : string) (c : Q) :
  0 < c -> c <= Py.get d k 0 -> Py.dict_truthy d = true.
Proof.
  unfold Py.get. intros Hc Hle.
  destruct (d !! k) as [v|] eqn:E.
  - eapply dict_truthy_lookup; eauto.
  - simpl in Hle. exfalso. apply (Qlt_irrefl 0).
    eapply Qlt_le_trans; eauto.
Qed.

Lemma str_in_spec (s : string) (l : list string) :
  Py.str_in s l = true <-> In s l.
Proof.
  unfold Py.str_in. rewrite existsb_exists. split.
  - intros (x & Hx & E). apply String.eqb_eq in E. subst. assumption.
  - intros H. exists s. split; [assumption|]. apply String.eqb_refl.
Qed.

End PyFacts.

(** ** The compliance rule engine *)

Section DetectFacts.
Import App Parts.

Implicit Types (r : row) (buyer_profiles : gmap string (gmap string Q))
  (titles_data : gmap string (gmap string string)).

Lemma if_app {A} (c : bool) (l l' : list A) :
  (if c then l ++ l' else l) = l ++ (if c then l' else []).
Proof. destruct c; [reflexivity|]. symmetry. apply app_nil_r. Qed.

(** The loop body is the concatenation of the five groups, in the order
    of evaluation. *)
Lemma row_issues_parts r buyer_profiles titles_data :
  row_issues r buyer_profiles titles_data =
  procedure_issues r ++ criteria_issues r ++ brand_issues r titles_data
  ++ buyer_issues r buyer_profiles ++ data_issues r.
Proof.
  unfold row_issues, procedure_issues, criteria_issues, brand_issues,
    buyer_issues, data_issues, profile_of, profile_active, title_of.
  cbv zeta.
  destruct (buyer_name r ≫= _) as [profile|].
  - destruct (Py.dict_truthy profile && _).
    + rewrite !if_app. simpl. rewrite <- !app_assoc. reflexivity.
    + rewrite !if_app. simpl. rewrite <- !app_assoc. reflexivity.
  - rewrite !if_app. simpl. rewrite <- !app_assoc. reflexivity.
Qed.

Lemma findings_parts r buyer_profiles titles_data :
  findings r buyer_profiles titles_data =
  map fst (procedure_issues r ++ criteria_issues r
           ++ brand_issues r titles_data
           ++ buyer_issues r buyer_profiles ++ data_issues r).
Proof.
  unfold findings, detect_clear_errors. simpl. rewrite app_nil_r.
  rewrite <- row_issues_parts, map_map.
  apply map_ext. intros [rule det]. reflexivity.
Qed.

Lemma detect_clear_errors_In (df : list row) r buyer_profiles titles_data
    (issue : string * detail) :
  In r df ->
  In issue (row_issues r buyer_profiles titles_data) ->
  In (make_flag r issue) (detect_clear_errors df buyer_profiles titles_data).
Proof.
  intros Hr Hi. unfold detect_clear_errors.
  apply in_flat_map. exists r. split; [assumption|].
  apply in_map. assumption.
Qed.

Lemma brand_scan_rule (patterns : list string) (title_text : string)
    (issue : string * detail) :
  In issue (brand_scan patterns title_text) ->
  fst issue = "brand_name_restriction".
Proof.
  induction patterns as [|pattern rest IH]; simpl; [contradiction|].
  destruct (Re.search pattern title_text).
  - intros [<-|[]]. reflexivity.
  - exact IH.
Qed.

Lemma procedure_issues_rules r (issue : string * detail) :
  In issue (procedure_issues r) ->
  In (fst issue) ["non_competitive_high_value"; "single_source_works_threshold"].
Proof.
  unfold procedure_issues. intros H. apply in_app_or in H.
  destruct H as [H|H].
  - destruct (_ && _) in H; [|contradiction].
    destruct H as [<-|[]]. simpl. auto.
  - destruct (_ && _) in H; [|contradiction].
    destruct H as [<-|[]]. simpl. auto.
Qed.

Lemma criteria_issues_rules r (issue : string * detail) :
  In issue (criteria_issues r) ->
  In (fst issue) ["price_only_high_services"; "no_criteria"].
Proof.
  unfold criteria_issues. cbv zeta. intros H. apply in_app_or in H.
  destruct H as [H|H].
  - destruct (_ && _) in H; [|contradiction].
    destruct H as [<-|[]]. simpl. auto.
  - destruct (_ && _) in H; [|contradiction].
    destruct H as [<-|[]]. simpl. auto.
Qed.

Lemma brand_issues_rules r titles_data (issue : string * detail) :
  In issue (brand_issues r titles_data) ->
  fst issue = "brand_name_restriction".
Proof.
  unfold brand_issues. destruct (Py.str_truthy _); [|contradiction].
  apply brand_scan_rule.
Qed.

Lemma buyer_issues_rules r buyer_profiles (issue : string * detail) :
  In issue (buyer_issues r buyer_profiles) ->
  In (fst issue) ["low_competition_buyer"; "price_only_disputed_buyer"].
Proof.
  unfold buyer_issues.
  destruct (profile_of r buyer_profiles) as [profile|]; [|contradiction].
  destruct (profile_active profile); [|contradiction].
  intros H. apply in_app_or in H. destruct H as [H|H].
  - destruct (_ && _) in H; [|contradiction].
    destruct H as [<-|[]]. simpl. auto.
  - destruct (_ && _) in H; [|contradiction].
    destruct H as [<-|[]]. simpl. auto.
Qed.

Lemma data_issues_rules r (issue : string * detail) :
  In issue (data_issues r) -> fst issue = "missing_buyer".
Proof.
  unfold data_issues. destruct (negb _); [|contradiction].
  intros [<-|[]]. reflexivity.
Qed.

End DetectFacts.

Section DetectClaims.
Import App Parts.

Implicit Types (r : row) (buyer_profiles : gmap string (gmap string Q))
  (titles_data : gmap string (gmap string string)).

(** C5: a record with procedure single-source ([oth-single]), contract type
    works and estimated value 6,000,000 gets both a
    [non_competitive_high_value] and a [single_source_works_threshold]
    finding among the flags of any frame that contains it. *)
Theorem single_source_works_both_findings (df : list row) r
    buyer_profiles titles_data :
  In r df ->
  procedure_type r = "oth-single" ->
  contract_type r = "works" ->
  estimated_value r = Some 6000000%Q ->
  (exists f, In f (detect_clear_errors df buyer_profiles titles_data)
             /\ flag_rhr_id f = rhr_id r
             /\ rule_id f = "non_competitive_high_value")
  /\ (exists f, In f (detect_clear_errors df buyer_profiles titles_data)
                /\ flag_rhr_id f = rhr_id r
                /\ rule_id f = "single_source_works_threshold").
Proof.
  intros Hr Hproc Hct Hval.
  assert (Hp : procedure_issues r =
               [("non_competitive_high_value",
                  NonCompetitiveDetail (Some 6000000%Q) "oth-single");
                ("single_source_works_threshold",
                  WorksThresholdDetail (Some 6000000%Q))]).
  { unfold procedure_issues. rewrite Hproc, Hct, Hval. reflexivity. }
  split.
  - eexists. split; [|split].
    + eapply detect_clear_errors_In; [exact Hr|].
      rewrite row_issues_parts, Hp. simpl. left. reflexivity.
    + reflexivity.
    + reflexivity.
  - eexists. split; [|split].
    + eapply detect_clear_errors_In; [exact Hr|].
      rewrite row_issues_parts, Hp. simpl. right. left. reflexivity.
    + reflexivity.
    + reflexivity.
Qed.

Lemma single_source_works_both_findings_witness :
  let r := {| rhr_id := "R1"; buyer_name := Some "City"; sector := "construction";
              procedure_type := "oth-single"; contract_type := "works";
              estimated_value := Some 6000000%Q; price_weight := Some 1%Q;
              quality_weight := Some 0%Q; stage1_probability := (1 # 10)%Q |} in
  (exists f, In f (detect_clear_errors [r] ∅ ∅)
             /\ flag_rhr_id f = rhr_id r
             /\ rule_id f = "non_competitive_high_value")
  /\ (exists f, In f (detect_clear_errors [r] ∅ ∅)
                /\ flag_rhr_id f = rhr_id r
                /\ rule_id f = "single_source_works_threshold").
Proof.
  intros r.
  apply (single_source_works_both_findings [r] r ∅ ∅);
    [left; reflexivity | reflexivity | reflexivity | reflexivity].
Defined.

Lemma no_weights_not_price_only (pw qw : Q) :
  (pw == 0)%Q -> (qw == 0)%Q ->
  Py.gt pw 0 = false /\ Py.gt (pw + qw) 0 = false
  /\ Py.eq pw 0 = true /\ Py.eq qw 0 = true.
Proof.
  intros Hp Hq. repeat split.
  - destruct (Py.gt pw 0) eqn:E; [|reflexivity]. apply gt_spec in E. lra.
  - destruct (Py.gt (pw + qw) 0) eqn:E; [|reflexivity]. apply gt_spec in E. lra.
  - apply eq_spec. assumption.
  - apply eq_spec. assumption.
Qed.

(** With both weights zero the Criteria Quality score is exactly 6. *)
Lemma score_2_no_weights (features : gmap string Q) (contract_type : string) :
  (Py.get features "price_weight" 0 == 0)%Q ->
  (Py.get features "quality_weight" 0 == 0)%Q ->
  PdfReport.score_2 features contract_type = 6%Z.
Proof.
  intros Hp Hq.
  destruct (no_weights_not_price_only _ _ Hp Hq) as (Hgt & Htot & Hep & Heq).
  unfold PdfReport.score_2, PdfReport.rubric_is_price_only. cbv zeta.
  rewrite Hgt, Htot, Hep, Heq. reflexivity.
Qed.

(** C6: a record with price weight 0, quality weight 0 and procedure open
    gets a [no_criteria] finding, and the Criteria Quality dimension of its
    quality assessment scores at most 6. *)
Theorem no_weights_open_procedure (df : list row) r buyer_profiles titles_data
    (features : gmap string Q) (contract_type sector : string)
    (buyer_profile : option (gmap string Q))
    (integrity_flags : list (string * string * string)) :
  In r df ->
  (default 0 (price_weight r) == 0)%Q ->
  (default 0 (quality_weight r) == 0)%Q ->
  procedure_type r = "open" ->
  (Py.get features "price_weight" 0 == 0)%Q ->
  (Py.get features "quality_weight" 0 == 0)%Q ->
  (exists f, In f (detect_clear_errors df buyer_profiles titles_data)
             /\ flag_rhr_id f = rhr_id r
             /\ rule_id f = "no_criteria")
  /\ (exists s, dimension_score "Criteria Quality"
                  (PdfReport.compute_quality_assessment features "open"
                     contract_type sector buyer_profile integrity_flags) = Some s
                /\ (s <= 6)%Z).
Proof.
  intros Hr Hp Hq Hproc Hfp Hfq. split.
  - exists (make_flag r ("no_criteria", NoCriteriaDetail)).
    split; [|split; reflexivity].
    eapply detect_clear_errors_In; [exact Hr|].
    rewrite row_issues_parts.
    apply in_or_app. right. apply in_or_app. left.
    unfold criteria_issues. cbv zeta.
    destruct (no_weights_not_price_only _ _ Hp Hq) as (_ & _ & Hep & Heq).
    rewrite Hep, Heq, Hproc. apply in_or_app. right. simpl. left. reflexivity.
  - exists 6%Z. split; [|lia].
    unfold dimension_score. simpl.
    rewrite (score_2_no_weights features contract_type Hfp Hfq). reflexivity.
Qed.

Lemma no_weights_open_procedure_witness :
  let r := {| rhr_id := "R2"; buyer_name := Some "Town"; sector := "IT";
              procedure_type := "open"; contract_type := "services";
              estimated_value := Some 90000%Q; price_weight := Some 0%Q;
              quality_weight := Some 0%Q; stage1_probability := (1 # 20)%Q |} in
  let features : gmap string Q :=
    {[ "price_weight" := 0%Q; "quality_weight" := 0%Q ]} in
  (exists f, In f (detect_clear_errors [r] ∅ ∅)
             /\ flag_rhr_id f = rhr_id r
             /\ rule_id f = "no_criteria")
  /\ (exists s, dimension_score "Criteria Quality"
                  (PdfReport.compute_quality_assessment features "open"
                     "services" "IT" None []) = Some s
                /\ (s <= 6)%Z).
Proof.
  intros r features.
  apply (no_weights_open_procedure [r] r ∅ ∅ features "services" "IT" None []);
    [left; reflexivity | reflexivity | reflexivity | reflexivity
    | reflexivity | reflexivity].
Defined.

Lemma profile_of_Some r buyer_profiles (profile : gmap string Q) :
  profile_of r buyer_profiles = Some profile <->
  exists b, buyer_name r = Some b /\ buyer_profiles !! b = Some profile.
Proof.
  unfold profile_of. destruct (buyer_name r) as [b|]; simpl.
  - split; [eauto|]. intros (b' & [= <-] & H). exact H.
  - split; [discriminate|]. intros (b' & [=] & _).
Qed.

(** When the price-only-disputed rule fires on a profile. *)
Lemma buyer_issues_price_only_disputed r buyer_profiles :
  In "price_only_disputed_buyer" (map fst (buyer_issues r buyer_profiles)) <->
  exists profile,
    profile_of r buyer_profiles = Some profile
    /\ (5 <= Py.get profile "procurement_count" 0)%Q
    /\ (95 # 100 <= Py.get profile "price_only_rate" 0)%Q
    /\ (2 <= Py.get profile "vako_disputes" 0)%Q.
Proof.
  unfold buyer_issues.
  destruct (profile_of r buyer_profiles) as [profile|].
  - unfold profile_active.
    destruct (Py.dict_truthy profile) eqn:Ht; simpl.
    + destruct (Py.ge (Py.get profile "procurement_count" 0%Q) 5%Q) eqn:Hc.
      * apply ge_spec in Hc.
        rewrite map_app, in_app_iff.
        destruct (Py.ge (Py.get profile "price_only_rate" 0%Q) (95 # 100)%Q) eqn:Hr;
          destruct (Py.ge (Py.get profile "vako_disputes" 0%Q) 2%Q) eqn:Hd; simpl.
        -- apply ge_spec in Hr, Hd. split; [|auto]. intros _. eauto 6.
        -- split.
           ++ intros [H|[]]. destruct (_ && _) in H; simpl in H;
                [destruct H as [H|[]]; discriminate | contradiction].
           ++ intros (p & [= <-] & _ & _ & H). apply ge_spec in H. congruence.
        -- split.
           ++ intros [H|[]]. destruct (_ && _) in H; simpl in H;
                [destruct H as [H|[]]; discriminate | contradiction].
           ++ intros (p & [= <-] & _ & H & _). apply ge_spec in H. congruence.
        -- split.
           ++ intros [H|[]]. destruct (_ && _) in H; simpl in H;
                [destruct H as [H|[]]; discriminate | contradiction].
           ++ intros (p & [= <-] & _ & H & _). apply ge_spec in H. congruence.
      * split; [contradiction|].
        intros (p & [= <-] & H & _). apply ge_spec in H. congruence.
    + split; [contradiction|].
      intros (p & [= <-] & H & _).
      assert (Py.dict_truthy profile = true)
        by (eapply get_pos_truthy; [|exact H]; lra).
      congruence.
  - simpl. split; [contradiction|]. intros (p & [=] & _).
Qed.

(** C2 (amended): the [price_only_disputed_buyer] finding is emitted exactly
    when the buyer has a profile with procurement count at least 5,
    price-only rate at least 0.95 and dispute count at least 2. *)
Theorem price_only_disputed_buyer_iff r buyer_profiles titles_data :
  In "price_only_disputed_buyer" (findings r buyer_profiles titles_data) <->
  exists (b : string) (profile : gmap string Q),
    buyer_name r = Some b
    /\ buyer_profiles !! b = Some profile
    /\ (5 <= Py.get profile "procurement_count" 0)%Q
    /\ (95 # 100 <= Py.get profile "price_only_rate" 0)%Q
    /\ (2 <= Py.get profile "vako_disputes" 0)%Q.
Proof.
  rewrite findings_parts, !map_app, !in_app_iff.
  rewrite buyer_issues_price_only_disputed.
  split.
  - intros [H|[H|[H|[H|H]]]].
    + apply in_map_iff in H. destruct H as (i & E & H).
      apply procedure_issues_rules in H. rewrite E in H.
      simpl in H. intuition discriminate.
    + apply in_map_iff in H. destruct H as (i & E & H).
      apply criteria_issues_rules in H. rewrite E in H.
      simpl in H. intuition discriminate.
    + apply in_map_iff in H. destruct H as (i & E & H).
      apply brand_issues_rules in H. rewrite E in H. discriminate.
    + destruct H as (profile & Hp & H).
      apply profile_of_Some in Hp. destruct Hp as (b & Hb & Hp). eauto 8.
    + apply in_map_iff in H. destruct H as (i & E & H).
      apply data_issues_rules in H. rewrite E in H. discriminate.
  - intros (b & profile & Hb & Hp & H).
    right. right. right. left. exists profile. split; [|exact H].
    apply profile_of_Some. eauto.
Qed.

(** C2 (as stated, refuted): a buyer with 4 procurements, all of them
    price-only, and 2 disputes meets both stated conditions and gets no
    finding. *)
Lemma price_only_disputed_small_buyer :
  let profile : gmap string Q :=
    {[ "procurement_count" := 4%Q; "price_only_rate" := 1%Q;
       "vako_disputes" := 2%Q ]} in
  let r := {| rhr_id := "R3"; buyer_name := Some "Parish"; sector := "health";
              procedure_type := "open"; contract_type := "supplies";
              estimated_value := Some 50000%Q; price_weight := Some 100%Q;
              quality_weight := Some 0%Q; stage1_probability := (1 # 50)%Q |} in
  Py.ge (Py.get profile "price_only_rate" 0%Q) (95 # 100) = true
  /\ Py.ge (Py.get profile "vako_disputes" 0%Q) 2 = true
  /\ findings r {[ "Parish" := profile ]} ∅ = [].
Proof. repeat split. Qed.

Lemma filter_none {A} (p : A -> bool) (l : list A) :
  (forall x, In x l -> p x = false) -> List.filter p l = [].
Proof.
  induction l as [|x l IH]; intros H; simpl; [reflexivity|].
  rewrite (H x) by (left; reflexivity).
  apply IH. intros y Hy. apply H. right. exact Hy.
Qed.

Lemma filter_map_flag r (rule : string) (issues : list (string * detail)) :
  List.filter (is_rule rule) (map (make_flag r) issues) =
  map (make_flag r) (List.filter (fun i => String.eqb (fst i) rule) issues).
Proof.
  induction issues as [|[k d] issues IH]; simpl; [reflexivity|].
  unfold is_rule at 1. simpl.
  destruct (String.eqb k rule); simpl; rewrite IH; reflexivity.
Qed.

(** The first pattern of the catalogue matches [SAP] in the title, whatever
    follows it. *)
Lemma search_sap (suffix : string) :
  Re.search "\bSAP\b" ("Procurement for SAP licences" +:+ suffix) = Some "SAP".
Proof. reflexivity. Qed.

Lemma brand_scan_sap (suffix : string) :
  let title := "Procurement for SAP licences" +:+ suffix in
  brand_scan BRAND_PATTERNS title =
  [("brand_name_restriction", BrandDetail "SAP" (Py.slice_to 120 title))].
Proof.
  intros title. unfold BRAND_PATTERNS, brand_scan.
  subst title. rewrite search_sap. reflexivity.
Qed.

(** C7: for a record whose title is "Procurement for SAP licences", followed
    by any text (for instance one that mentions Oracle), the engine emits
    exactly one [brand_name_restriction] finding, and its detail quotes the
    matched text "SAP". *)
Theorem sap_title_one_brand_finding r buyer_profiles titles_data
    (title_info : gmap string string) (suffix : string) :
  titles_data !! rhr_id r = Some title_info ->
  title_info !! "title" = Some ("Procurement for SAP licences" +:+ suffix) ->
  List.filter (is_rule "brand_name_restriction")
    (detect_clear_errors [r] buyer_profiles titles_data) =
  [make_flag r
     ("brand_name_restriction",
       BrandDetail "SAP"
         (Py.slice_to 120 ("Procurement for SAP licences" +:+ suffix)))].
Proof.
  intros Htd Hti.
  unfold detect_clear_errors. simpl. rewrite app_nil_r.
  rewrite filter_map_flag, row_issues_parts, !List.filter_app.
  assert (Hb : brand_issues r titles_data =
               [("brand_name_restriction",
                  BrandDetail "SAP"
                    (Py.slice_to 120 ("Procurement for SAP licences" +:+ suffix)))]).
  { unfold brand_issues, title_of, Py.get. rewrite Htd.
    cbv [from_option id]. rewrite Hti.
    rewrite (brand_scan_sap suffix). reflexivity. }
  rewrite Hb.
  rewrite (filter_none _ (procedure_issues r)), (filter_none _ (criteria_issues r)),
    (filter_none _ (buyer_issues r buyer_profiles)), (filter_none _ (data_issues r)).
  - reflexivity.
  - intros i H. apply data_issues_rules in H. rewrite H. reflexivity.
  - intros i H. apply buyer_issues_rules in H. simpl in H.
    destruct H as [<-|[<-|[]]]; reflexivity.
  - intros i H. apply criteria_issues_rules in H. simpl in H.
    destruct H as [<-|[<-|[]]]; reflexivity.
  - intros i H. apply procedure_issues_rules in H. simpl in H.
    destruct H as [<-|[<-|[]]]; reflexivity.
Qed.

Lemma sap_title_one_brand_finding_witness :
  let r := {| rhr_id := "R4"; buyer_name := Some "Ministry"; sector := "IT";
              procedure_type := "open"; contract_type := "supplies";
              estimated_value := Some 300000%Q; price_weight := Some 60%Q;
              quality_weight := Some 40%Q; stage1_probability := (3 # 100)%Q |} in
  let title_info : gmap string string :=
    {[ "title" := "Procurement for SAP licences and Oracle databases" ]} in
  List.filter (is_rule "brand_name_restriction")
    (detect_clear_errors [r] ∅ {[ "R4" := title_info ]}) =
  [make_flag r
     ("brand_name_restriction",
       BrandDetail "SAP"
         (Py.slice_to 120 "Procurement for SAP licences and Oracle databases"))].
Proof.
  intros r title_info.
  apply (sap_title_one_brand_finding r ∅ {[ "R4" := title_info ]} title_info
           " and Oracle databases");
    reflexivity.
Defined.

End DetectClaims.

(** ** The quality rubric *)

Section RubricFacts.
Import PdfReport Parts.
Local Open Scope Z_scope.

Lemma clamp_range (s : Z) : 0 <= clamp s <= 20.
Proof. unfold clamp. lia. Qed.

Lemma score_1_range (features : gmap string Q) (procedure : string) :
  0 <= score_1 features procedure <= 20.
Proof. unfold score_1. cbv zeta. apply clamp_range. Qed.

Lemma score_2_range (features : gmap string Q) (contract_type : string) :
  0 <= score_2 features contract_type <= 20.
Proof. unfold score_2. cbv zeta. apply clamp_range. Qed.

Lemma score_3_range (features : gmap string Q) : 0 <= score_3 features <= 20.
Proof.
  unfold score_3. cbv zeta.
  destruct (Py.truthy_opt (features !! "has_green"));
    destruct (Py.truthy_opt (features !! "has_social"));
    destruct (Py.truthy_opt (features !! "has_innovation"));
    apply clamp_range.
Qed.

Lemma score_4_range (features : gmap string Q) : 0 <= score_4 features <= 20.
Proof. unfold score_4. cbv zeta. apply clamp_range. Qed.

Lemma score_5_range (buyer_profile : option (gmap string Q))
    (integrity_flags : list (string * string * string)) :
  0 <= score_5 buyer_profile integrity_flags <= 20.
Proof. unfold score_5. cbv zeta. apply clamp_range. Qed.

(** C8: each of the five dimension scores of an assessment lies in [0, 20]
    and the overall score, their sum, lies in [0, 100]. *)
Theorem quality_scores_in_range (features : gmap string Q)
    (procedure contract_type sector : string)
    (buyer_profile : option (gmap string Q))
    (integrity_flags : list (string * string * string)) :
  let qa := compute_quality_assessment features procedure contract_type sector
              buyer_profile integrity_flags in
  length (dimensions qa) = 5%nat
  /\ Forall (fun d => 0 <= score (snd d) <= 20) (dimensions qa)
  /\ overall_score qa = sum_scores (dimensions qa)
  /\ 0 <= overall_score qa <= 100.
Proof.
  pose proof (score_1_range features procedure).
  pose proof (score_2_range features contract_type).
  pose proof (score_3_range features).
  pose proof (score_4_range features).
  pose proof (score_5_range buyer_profile integrity_flags).
  simpl. repeat split.
  - repeat constructor; simpl; lia.
  - unfold sum_scores. simpl. lia.
  - unfold sum_scores. simpl. lia.
Qed.

(** The integer test [pow10_ge] agrees with the comparison of the power
    itself whenever that power is an integer [d]. *)
Lemma pow10_ge_exact (p : Z) (q : positive) (d c : Z) :
  0 <= d -> 0 <= c -> d ^ Zpos q = 10 ^ p ->
  pow10_ge (p # q) c = (c <=? d).
Proof.
  intros Hd Hc Hpow. unfold pow10_ge. simpl. rewrite <- Hpow.
  destruct (c <=? d) eqn:E.
  - apply Z.leb_le in E. apply Z.leb_le.
    apply Z.pow_le_mono_l. lia.
  - apply Z.leb_gt in E. apply Z.leb_gt.
    apply Z.pow_lt_mono_l; lia.
Qed.

(** C4 (amended): the Transparency score is the specified one (base 12, +3
    for a published value and -4 otherwise, +3 / +1 / -3 by deadline length,
    clamped to [0, 20]) where the deadline adjustment applies only if the
    deadline is known and the logarithm of its length is positive, that is
    for deadlines longer than one day. *)
Theorem transparency_score_coded (features : gmap string Q) :
  score_4 features =
  transparency_spec (value_published features) (deadline_as_coded features).
Proof.
  unfold score_4, transparency_spec, deadline_as_coded, value_published,
    deadline_known. cbv zeta.
  destruct (negb (Py.truthy (Py.get features "value_missing" 0%Q)));
    destruct (negb (Py.truthy (Py.get features "deadline_missing" 0%Q)));
    simpl;
    try (destruct (Py.gt (Py.get features "log_deadline_days" (-1)%Q) 0%Q);
         try (destruct (pow10_ge _ 30); try destruct (pow10_ge _ 15)));
    f_equal; lia.
Qed.

(** C4 (as stated, refuted): a published value and a known deadline of one
    day ([10 ** 0]) score 15, where the stated rule gives 12 + 3 - 3 = 12. *)
Lemma transparency_one_day_deadline :
  let features : gmap string Q :=
    {[ "value_missing" := 0%Q; "deadline_missing" := 0%Q;
       "log_deadline_days" := 0%Q ]} in
  deadline_as_specified features = Some 0%Q
  /\ pow10_ge 0%Q 15 = false
  /\ score_4 features = 15
  /\ transparency_spec (value_published features)
       (deadline_as_specified features) = 12.
Proof. repeat split. Qed.

End RubricFacts.

(** ** The price-only predicate *)

Section PriceOnly.
Import App PdfReport.
Local Open Scope Q_scope.

(** The first disjunct of the two-disjunct form implies the second. *)
Lemma zero_quality_share (pw qw : Q) :
  qw == 0 -> 0 < pw ->
  Py.gt (pw + qw) 0 = true /\ Py.lt (qw / (pw + qw)) (1 # 100) = true.
Proof.
  intros Hq Hp. split.
  - apply gt_spec. lra.
  - apply lt_spec. unfold Qdiv. rewrite Hq, Qmult_0_l. reflexivity.
Qed.

Lemma two_disjuncts_single_branch (pw qw : Q) :
  detect_is_price_only pw qw = bench_is_price_only pw qw.
Proof.
  unfold detect_is_price_only, bench_is_price_only. cbv zeta.
  destruct (Py.eq qw 0) eqn:Eq; [|reflexivity].
  destruct (Py.gt pw 0) eqn:Ep; [|reflexivity].
  apply eq_spec in Eq. apply gt_spec in Ep.
  destruct (zero_quality_share pw qw Eq Ep) as [-> ->]. reflexivity.
Qed.

(** C10: for non-negative weights the four inline price-only tests (rule
    engine, recommendation synthesiser, quality rubric, sector benchmark)
    agree; in particular the single-branch form of the benchmark equals the
    two-disjunct form of the other three. *)
Theorem price_only_predicates_agree (pw qw : Q) :
  0 <= pw -> 0 <= qw ->
  detect_is_price_only pw qw = checklist_is_price_only pw qw
  /\ checklist_is_price_only pw qw = rubric_is_price_only pw qw
  /\ rubric_is_price_only pw qw = bench_is_price_only pw qw
  /\ (bench_is_price_only pw qw = true <->
      (qw == 0 /\ 0 < pw) \/ (0 < pw + qw /\ qw / (pw + qw) < 1 # 100)).
Proof.
  intros _ _.
  split; [reflexivity|]. split; [reflexivity|].
  split; [apply (two_disjuncts_single_branch pw qw)|].
  rewrite <- two_disjuncts_single_branch.
  unfold detect_is_price_only. cbv zeta.
  rewrite orb_true_iff, !andb_true_iff, eq_spec, !gt_spec, lt_spec.
  tauto.
Qed.

Lemma price_only_predicates_agree_witness :
  detect_is_price_only 100 0 = checklist_is_price_only 100 0
  /\ checklist_is_price_only 100 0 = rubric_is_price_only 100 0
  /\ rubric_is_price_only 100 0 = bench_is_price_only 100 0
  /\ (bench_is_price_only 100 0 = true <->
      (0 == 0 /\ 0 < 100) \/ (0 < 100 + 0 /\ 0 / (100 + 0) < 1 # 100)).
Proof.
  apply (price_only_predicates_agree 100 0); discriminate.
Defined.

End PriceOnly.

(** ** Comparable matches and sector benchmarks *)

Section CorpusFacts.
Import App Parts.

Variable np_exp : Q -> Q.

Lemma insert_sorted_perm {A} (leb : A -> A -> bool) (x : A) (l : list A) :
  Permutation (insert_sorted leb x l) (x :: l).
Proof.
  induction l as [|y l IH]; simpl.
  - apply Permutation_refl.
  - destruct (leb x y).
    + apply Permutation_refl.
    + eapply perm_trans; [apply perm_skip, IH | apply perm_swap].
Qed.

Lemma sort_by_perm {A} (leb : A -> A -> bool) (l : list A) :
  Permutation (sort_by leb l) l.
Proof.
  induction l as [|x l IH]; simpl.
  - apply perm_nil.
  - eapply perm_trans; [apply insert_sorted_perm | apply perm_skip, IH].
Qed.

(** A row that is kept carries the id of its record, which is not the
    excluded one. *)
Lemma comparable_row_id (ids : gset string)
    (titles_data : gmap string (gmap string string))
    (sector procedure : string) (value : option Q) (exclude_rhr rhr_id : string)
    (rec : feat_rec) (c : comparable) :
  comparable_row np_exp ids titles_data sector procedure value exclude_rhr
    rhr_id rec = Some c ->
  cmp_rhr_id c = rhr_id /\ rhr_id <> exclude_rhr.
Proof.
  unfold comparable_row.
  destruct (String.eqb rhr_id exclude_rhr) eqn:E; [discriminate|].
  apply String.eqb_neq in E. cbv zeta.
  destruct (Py.str_truthy sector && _); [discriminate|].
  destruct (Py.str_truthy procedure && _); [discriminate|].
  destruct (Py.truthy_opt value && _ && _); [discriminate|].
  intros [= <-]. split; [reflexivity | exact E].
Qed.

(** C9: the result of the comparable match finder never contains the
    queried record's own id and never has more than 20 rows. *)
Theorem comparables_exclude_target_at_most_20
    (features_dict : list (string * feat_rec))
    (disputes_data : gmap string (gmap string (gmap string string)))
    (titles_data : gmap string (gmap string string))
    (sector procedure contract_type : string) (value : option Q)
    (exclude_rhr : string) :
  let result := _find_comparable_procurements np_exp features_dict disputes_data
                  titles_data sector procedure contract_type value exclude_rhr in
  Forall (fun c => cmp_rhr_id c <> exclude_rhr) result
  /\ length result <= 20.
Proof.
  intros result. subst result. unfold _find_comparable_procurements. cbv zeta.
  set (rows := omap _ features_dict).
  assert (Hrows : Forall (fun c => cmp_rhr_id c <> exclude_rhr) rows).
  { apply Forall_forall. intros c Hc.
    subst rows.
    apply list_elem_of_omap in Hc. destruct Hc as ([rhr_id rec] & _ & Hc).
    apply comparable_row_id in Hc. destruct Hc as [-> Hne]. exact Hne. }
  destruct (negb (Py.list_truthy rows)).
  - split; [constructor | simpl; lia].
  - split.
    + apply Forall_take.
      eapply Permutation_Forall; [|exact Hrows].
      apply Permutation_sym, sort_by_perm.
    + rewrite length_take. lia.
Qed.

Lemma bench_step_total_count (ids : gset string) (sector : string)
    (acc : bench_acc) (item : string * feat_rec) :
  total_count (bench_step np_exp ids sector acc item) =
  if in_sector sector item then S (total_count acc) else total_count acc.
Proof.
  destruct item as [rhr_id rec]. unfold bench_step, in_sector. simpl.
  destruct (Py.truthy _); simpl; lia.
Qed.

Lemma bench_fold_total_count (ids : gset string) (sector : string)
    (features_dict : list (string * feat_rec)) (acc : bench_acc) :
  total_count (fold_left (bench_step np_exp ids sector) features_dict acc) =
  total_count acc + length (List.filter (in_sector sector) features_dict).
Proof.
  revert acc. induction features_dict as [|item rest IH]; intros acc; simpl.
  - lia.
  - rewrite IH, bench_step_total_count.
    destruct (in_sector sector item); simpl; lia.
Qed.

Lemma filter_length_0 {A} (p : A -> bool) (l : list A) :
  length (List.filter p l) = 0 <-> Forall (fun x => p x = false) l.
Proof.
  induction l as [|x l IH]; simpl.
  - split; [constructor | reflexivity].
  - destruct (p x) eqn:E; simpl.
    + split; [discriminate|]. intros H. inversion H. congruence.
    + rewrite IH. split.
      * intros H. constructor; assumption.
      * intros H. inversion H. assumption.
Qed.

(** C1 (amended): the sector benchmark aggregator returns the empty dict,
    with no [total], [dispute_rate] or [median_value] entry, exactly when no
    record of the corpus belongs to the sector; it never fails. *)
Theorem sector_without_records_empty_dict
    (features_dict : list (string * feat_rec))
    (disputes_data : gmap string (gmap string (gmap string string)))
    (sector : string) :
  _compute_sector_benchmarks np_exp features_dict disputes_data sector = ∅
  <-> Forall (fun item => in_sector sector item = false) features_dict.
Proof.
  rewrite <- filter_length_0.
  unfold _compute_sector_benchmarks. cbv zeta.
  rewrite (bench_fold_total_count (dispute_ids disputes_data) sector
             features_dict bench_init).
  simpl total_count. rewrite Nat.add_0_l.
  destruct (length (List.filter (in_sector sector) features_dict)) as [|n].
  - simpl. split; reflexivity.
  - simpl Nat.eqb. cbv iota. split; [|discriminate].
    intros H. exfalso. revert H. apply insert_non_empty.
Qed.

End CorpusFacts.

(** C1 (as stated, refuted): one IT record in the corpus and a benchmark
    asked for the health sector. The result has no [total], no
    [dispute_rate] and no [median_value] entry, whatever the exponential. *)
Lemma health_benchmark_over_it_corpus :
  let corpus : list (string * App.feat_rec) :=
    [ ("R5", {| App.features :=
                  Some {[ "sector_IT" := 1%Q; "value_missing" := 0%Q;
                          "log_estimated_value" := 11%Q;
                          "price_weight" := 60%Q; "quality_weight" := 40%Q ]};
                App.rec_buyer_name := Some "Ministry";
                App.rec_stage1_probability := Some (3 # 100)%Q |}) ] in
  (fun np_exp : Q -> Q =>
     let result := App._compute_sector_benchmarks np_exp corpus ∅ "health" in
     (result !! "total", result !! "dispute_rate", result !! "median_value"))
  = (fun _ => (None, None, None)).
Proof. reflexivity. Qed.

(** ** The recommendation synthesiser *)

Section ChecklistFacts.
Import App Parts.

Lemma dedup_texts (seen : gset string) (actions : list action_item) (t : string) :
  In t (map action_text (dedup seen actions)) <->
  In t (map action_text actions) /\ t ∉ seen.
Proof.
  revert seen. induction actions as [|[[priority action] rationale] rest IH];
    intros seen; simpl.
  - tauto.
  - destruct (bool_decide (action ∈ seen)) eqn:E.
    + apply bool_decide_eq_true in E. rewrite IH. unfold action_text at 2. simpl.
      split.
      * intros [H1 H2]. tauto.
      * intros [[<-|H1] H2]; [contradiction | tauto].
    + apply bool_decide_eq_false in E. simpl. rewrite IH.
      unfold action_text at 1 3. simpl.
      split.
      * intros [<-|[H1 H2]]; [tauto|]. split; [tauto|].
        intros Hs. apply H2, elem_of_union. right. exact Hs.
      * intros [[<-|H1] H2]; [tauto|].
        destruct (decide (action = t)) as [->|Hne]; [tauto|].
        right. split; [assumption|].
        intros Hs. apply elem_of_union in Hs. destruct Hs as [Hs|Hs].
        -- apply elem_of_singleton in Hs. congruence.
        -- contradiction.
Qed.

Lemma checklist_actions_parts (monthly_rec : option row)
    (feat_rec : option feat_rec) (llm_result : option (gmap string string))
    (profile : option (gmap string Q)) :
  checklist_actions monthly_rec feat_rec llm_result profile =
  value_actions (monthly_rec ≫= estimated_value)
  ++ procedure_actions (from_option procedure_type "" monthly_rec)
       (monthly_rec ≫= estimated_value)
  ++ criteria_actions
       (Py.get (checklist_feat feat_rec) "price_weight" 0%Q)
       (Py.get (checklist_feat feat_rec) "quality_weight" 0%Q)
       (from_option contract_type "" monthly_rec)
       (monthly_rec ≫= estimated_value)
  ++ llm_actions llm_result
  ++ buyer_actions profile
  ++ sector_actions (from_option sector "" monthly_rec)
       (monthly_rec ≫= estimated_value).
Proof. reflexivity. Qed.

Lemma value_actions_texts (value : option Q) :
  ~ In scoring_methodology (map action_text (value_actions value)).
Proof.
  unfold value_actions. destruct (Py.and_gt value 5000000); simpl;
    intuition discriminate.
Qed.

Lemma procedure_actions_texts (procedure : string) (value : option Q) :
  ~ In scoring_methodology (map action_text (procedure_actions procedure value)).
Proof.
  unfold procedure_actions.
  destruct (String.eqb procedure "neg-w-call"); [|destruct (_ && _)]; simpl;
    intuition discriminate.
Qed.

Lemma llm_actions_texts (llm_result : option (gmap string string)) :
  ~ In scoring_methodology (map action_text (llm_actions llm_result)).
Proof.
  unfold llm_actions. destruct llm_result as [llm|]; [|simpl; tauto].
  destruct (Py.dict_truthy llm); [|simpl; tauto]. cbv zeta.
  destruct (_ || _); destruct (_ || _); destruct (_ || _ || _); simpl;
    intuition discriminate.
Qed.

Lemma buyer_actions_texts (profile : option (gmap string Q)) :
  ~ In scoring_methodology (map action_text (buyer_actions profile)).
Proof.
  unfold buyer_actions. destruct profile as [pr|]; [|simpl; tauto].
  destruct (Py.dict_truthy pr); [|simpl; tauto].
  destruct (Py.gt _ _); destruct (Py.ge _ _); simpl; intuition discriminate.
Qed.

Lemma sector_actions_texts (sector : string) (value : option Q) :
  ~ In scoring_methodology (map action_text (sector_actions sector value)).
Proof.
  unfold sector_actions. destruct (_ && _); simpl; intuition discriminate.
Qed.

Lemma truthy_and_gt_half (qw : Q) :
  Py.truthy qw && Py.gt qw (1 # 2) = true <-> (1 # 2 < qw)%Q.
Proof.
  rewrite andb_true_iff, truthy_spec, gt_spec. split.
  - tauto.
  - intros H. split; [|exact H]. intros E. rewrite E in H. discriminate.
Qed.

(** What the code does: the scoring-methodology action is emitted exactly
    when the price-only branch is not taken and the raw quality weight
    exceeds 0.5. *)
Lemma scoring_methodology_raw_weight
    (monthly_rec : option row) (feat_rec : option feat_rec)
    (llm_result : option (gmap string string))
    (profile : option (gmap string Q))
    (contrib_df : option (list (string * Q))) :
  In scoring_methodology
    (map action_text
       (_generate_action_checklist monthly_rec feat_rec llm_result profile
          contrib_df))
  <-> price_only_branch monthly_rec feat_rec = false
      /\ (1 # 2 < Py.get (checklist_feat feat_rec) "quality_weight" 0)%Q.
Proof.
  unfold _generate_action_checklist.
  rewrite dedup_texts, checklist_actions_parts, !map_app, !in_app_iff.
  assert (Hseen : scoring_methodology ∉ (∅ : gset string))
    by apply not_elem_of_empty.
  pose proof (value_actions_texts (monthly_rec ≫= estimated_value)).
  pose proof (procedure_actions_texts
                (from_option procedure_type "" monthly_rec)
                (monthly_rec ≫= estimated_value)).
  pose proof (llm_actions_texts llm_result).
  pose proof (buyer_actions_texts profile).
  pose proof (sector_actions_texts (from_option sector "" monthly_rec)
                (monthly_rec ≫= estimated_value)).
  rewrite <- truthy_and_gt_half.
  unfold criteria_actions, price_only_branch.
  destruct (checklist_is_price_only _ _ && _ && _);
    [|destruct (Py.truthy _ && Py.gt _ _)];
    simpl; unfold action_text at 3; simpl;
    try (unfold scoring_methodology at 3); intuition congruence.
Qed.

(** C3 (the code at the failing inputs): with price weight 70 and quality
    weight 30 the quality share is 0.3, not above 0.5, and the action is
    emitted all the same; with price weight 0.1 and quality weight 0.4 the
    share is 0.8 and the action is not emitted. In both cases the price-only
    branch does not apply. *)
Theorem scoring_methodology_ignores_ratio :
  let weights (pw qw : Q) : option feat_rec :=
    Some {| features := Some {[ "price_weight" := pw; "quality_weight" := qw ]};
            rec_buyer_name := None; rec_stage1_probability := None |} in
  (price_only_branch None (weights 70%Q 30%Q) = false
   /\ Py.gt (30 / (70 + 30))%Q (1 # 2)%Q = false
   /\ map action_text
        (_generate_action_checklist None (weights 70%Q 30%Q) None None None)
      = [scoring_methodology])
  /\ (price_only_branch None (weights (1 # 10)%Q (4 # 10)%Q) = false
      /\ Py.gt ((4 # 10) / ((1 # 10) + (4 # 10)))%Q (1 # 2)%Q = true
      /\ map action_text
           (_generate_action_checklist None (weights (1 # 10)%Q (4 # 10)%Q)
              None None None)
         = []).
Proof. repeat split. Qed.

End ChecklistFacts.

(** ** More on the compliance rule engine *)

Section DetectMore.
Import App Parts.

Implicit Types (r : row) (buyer_profiles : gmap string (gmap string Q))
  (titles_data : gmap string (gmap string string)).

Lemma brand_scan_shape (patterns : list string) (title_text : string) :
  map fst (brand_scan patterns title_text) = []
  \/ map fst (brand_scan patterns title_text) = ["brand_name_restriction"].
Proof.
  induction patterns as [|pattern rest IH]; simpl; [left; reflexivity|].
  destruct (Re.search pattern title_text); [right; reflexivity | exact IH].
Qed.

Lemma sublist_if_singleton {A} (c : bool) (x : A) :
  (if c then [x] else []) `sublist_of` [x].
Proof. destruct c; [reflexivity | apply sublist_nil_l]. Qed.

Lemma procedure_ids_sublist r :
  map fst (procedure_issues r) `sublist_of`
  ["non_competitive_high_value"; "single_source_works_threshold"].
Proof.
  unfold procedure_issues. rewrite map_app.
  apply (sublist_app _ ["non_competitive_high_value"]
           _ ["single_source_works_threshold"]).
  - destruct (_ && _); [reflexivity | apply sublist_nil_l].
  - destruct (_ && _); [reflexivity | apply sublist_nil_l].
Qed.

Lemma criteria_ids_sublist r :
  map fst (criteria_issues r) `sublist_of`
  ["price_only_high_services"; "no_criteria"].
Proof.
  unfold criteria_issues. cbv zeta. rewrite map_app.
  apply (sublist_app _ ["price_only_high_services"] _ ["no_criteria"]).
  - destruct (_ && _); [reflexivity | apply sublist_nil_l].
  - destruct (_ && _); [reflexivity | apply sublist_nil_l].
Qed.

Lemma brand_ids_sublist r titles_data :
  map fst (brand_issues r titles_data) `sublist_of` ["brand_name_restriction"].
Proof.
  unfold brand_issues. destruct (Py.str_truthy _); [|apply sublist_nil_l].
  destruct (brand_scan_shape BRAND_PATTERNS (title_of r titles_data)) as [-> | ->];
    [apply sublist_nil_l | reflexivity].
Qed.

Lemma buyer_ids_sublist r buyer_profiles :
  map fst (buyer_issues r buyer_profiles) `sublist_of`
  ["low_competition_buyer"; "price_only_disputed_buyer"].
Proof.
  unfold buyer_issues.
  destruct (profile_of r buyer_profiles) as [profile|]; [|apply sublist_nil_l].
  destruct (profile_active profile); [|apply sublist_nil_l].
  rewrite map_app.
  apply (sublist_app _ ["low_competition_buyer"] _ ["price_only_disputed_buyer"]).
  - destruct (_ && _); [reflexivity | apply sublist_nil_l].
  - destruct (_ && _); [reflexivity | apply sublist_nil_l].
Qed.

Lemma data_ids_sublist r :
  map fst (data_issues r) `sublist_of` ["missing_buyer"].
Proof.
  unfold data_issues. destruct (negb _); [reflexivity | apply sublist_nil_l].
Qed.

Lemma findings_sublist_rule_order r buyer_profiles titles_data :
  findings r buyer_profiles titles_data `sublist_of` RULE_ORDER.
Proof.
  rewrite findings_parts, !map_app.
  change RULE_ORDER with
    (["non_competitive_high_value"; "single_source_works_threshold"]
     ++ ["price_only_high_services"; "no_criteria"]
     ++ ["brand_name_restriction"]
     ++ ["low_competition_buyer"; "price_only_disputed_buyer"]
     ++ ["missing_buyer"]).
  repeat apply sublist_app.
  - apply procedure_ids_sublist.
  - apply criteria_ids_sublist.
  - apply brand_ids_sublist.
  - apply buyer_ids_sublist.
  - apply data_ids_sublist.
Qed.

(** X1: the rule ids found for a record follow the evaluation order of the
    engine and no rule is reported twice. *)
Theorem findings_in_evaluation_order r buyer_profiles titles_data :
  findings r buyer_profiles titles_data `sublist_of` RULE_ORDER
  /\ NoDup (findings r buyer_profiles titles_data).
Proof.
  pose proof (findings_sublist_rule_order r buyer_profiles titles_data) as H.
  split; [exact H|].
  apply (sublist_NoDup _ RULE_ORDER); [|exact H].
  apply (bool_decide_unpack _). vm_compute. exact I.
Qed.

Lemma findings_split r buyer_profiles titles_data (id : string) :
  In id (findings r buyer_profiles titles_data) <->
  In id (map fst (procedure_issues r))
  \/ In id (map fst (criteria_issues r))
  \/ In id (map fst (brand_issues r titles_data))
  \/ In id (map fst (buyer_issues r buyer_profiles))
  \/ In id (map fst (data_issues r)).
Proof. rewrite findings_parts, !map_app, !in_app_iff. reflexivity. Qed.

Lemma sublist_In (l k : list string) (id : string) :
  l `sublist_of` k -> In id l -> In id k.
Proof.
  intros Hs Hin. apply list_elem_of_In. apply list_elem_of_In in Hin.
  eapply sublist_subseteq; eauto.
Qed.

(** Which group a rule id can come from. *)
Lemma findings_procedure r buyer_profiles titles_data (id : string) :
  In id ["non_competitive_high_value"; "single_source_works_threshold"] ->
  (In id (findings r buyer_profiles titles_data)
   <-> In id (map fst (procedure_issues r))).
Proof.
  intros Hid. rewrite findings_split. split; [|tauto].
  intros [H|[H|[H|[H|H]]]]; [exact H|exfalso..].
  - apply (sublist_In _ _ _ (criteria_ids_sublist r)) in H.
    simpl in *. intuition congruence.
  - apply (sublist_In _ _ _ (brand_ids_sublist r titles_data)) in H.
    simpl in *. intuition congruence.
  - apply (sublist_In _ _ _ (buyer_ids_sublist r buyer_profiles)) in H.
    simpl in *. intuition congruence.
  - apply (sublist_In _ _ _ (data_ids_sublist r)) in H.
    simpl in *. intuition congruence.
Qed.

Lemma findings_criteria r buyer_profiles titles_data (id : string) :
  In id ["price_only_high_services"; "no_criteria"] ->
  (In id (findings r buyer_profiles titles_data)
   <-> In id (map fst (criteria_issues r))).
Proof.
  intros Hid. rewrite findings_split. split; [|tauto].
  intros [H|[H|[H|[H|H]]]]; [exfalso|exact H|exfalso..].
  - apply (sublist_In _ _ _ (procedure_ids_sublist r)) in H.
    simpl in *. intuition congruence.
  - apply (sublist_In _ _ _ (brand_ids_sublist r titles_data)) in H.
    simpl in *. intuition congruence.
  - apply (sublist_In _ _ _ (buyer_ids_sublist r buyer_profiles)) in H.
    simpl in *. intuition congruence.
  - apply (sublist_In _ _ _ (data_ids_sublist r)) in H.
    simpl in *. intuition congruence.
Qed.

Lemma findings_brand r buyer_profiles titles_data :
  In "brand_name_restriction" (findings r buyer_profiles titles_data)
  <-> In "brand_name_restriction" (map fst (brand_issues r titles_data)).
Proof.
  rewrite findings_split. split; [|tauto].
  intros [H|[H|[H|[H|H]]]]; [exfalso|exfalso|exact H|exfalso..].
  - apply (sublist_In _ _ _ (procedure_ids_sublist r)) in H.
    simpl in *. intuition congruence.
  - apply (sublist_In _ _ _ (criteria_ids_sublist r)) in H.
    simpl in *. intuition congruence.
  - apply (sublist_In _ _ _ (buyer_ids_sublist r buyer_profiles)) in H.
    simpl in *. intuition congruence.
  - apply (sublist_In _ _ _ (data_ids_sublist r)) in H.
    simpl in *. intuition congruence.
Qed.

Lemma findings_buyer r buyer_profiles titles_data (id : string) :
  In id ["low_competition_buyer"; "price_only_disputed_buyer"] ->
  (In id (findings r buyer_profiles titles_data)
   <-> In id (map fst (buyer_issues r buyer_profiles))).
Proof.
  intros Hid. rewrite findings_split. split; [|tauto].
  intros [H|[H|[H|[H|H]]]]; [exfalso|exfalso|exfalso|exact H|exfalso].
  - apply (sublist_In _ _ _ (procedure_ids_sublist r)) in H.
    simpl in *. intuition congruence.
  - apply (sublist_In _ _ _ (criteria_ids_sublist r)) in H.
    simpl in *. intuition congruence.
  - apply (sublist_In _ _ _ (brand_ids_sublist r titles_data)) in H.
    simpl in *. intuition congruence.
  - apply (sublist_In _ _ _ (data_ids_sublist r)) in H.
    simpl in *. intuition congruence.
Qed.

Lemma findings_data r buyer_profiles titles_data :
  In "missing_buyer" (findings r buyer_profiles titles_data)
  <-> In "missing_buyer" (map fst (data_issues r)).
Proof.
  rewrite findings_split. split; [|tauto].
  intros [H|[H|[H|[H|H]]]]; [exfalso..|exact H].
  - apply (sublist_In _ _ _ (procedure_ids_sublist r)) in H.
    simpl in *. intuition congruence.
  - apply (sublist_In _ _ _ (criteria_ids_sublist r)) in H.
    simpl in *. intuition congruence.
  - apply (sublist_In _ _ _ (brand_ids_sublist r titles_data)) in H.
    simpl in *. intuition congruence.
  - apply (sublist_In _ _ _ (buyer_ids_sublist r buyer_profiles)) in H.
    simpl in *. intuition congruence.
Qed.

Lemma in_if_singleton {A} (c : bool) (x y : A) :
  In y (if c then [x] else []) <-> c = true /\ y = x.
Proof. destruct c; simpl; intuition congruence. Qed.

Lemma and_gt_weaken (val : option Q) (c c' : Q) :
  (c' <= c)%Q -> Py.and_gt val c = true -> Py.and_gt val c' = true.
Proof.
  destruct val as [v|]; simpl; [|discriminate].
  rewrite !andb_true_iff, !gt_spec. intros Hc [Ht Hv]. split; [exact Ht|].
  eapply Qle_lt_trans; eauto.
Qed.

(** X2: a [single_source_works_threshold] finding never comes without a
    [non_competitive_high_value] finding for the same record. *)
Theorem works_threshold_implies_non_competitive r buyer_profiles titles_data :
  In "single_source_works_threshold" (findings r buyer_profiles titles_data) ->
  In "non_competitive_high_value" (findings r buyer_profiles titles_data).
Proof.
  rewrite !findings_procedure by (simpl; auto).
  unfold procedure_issues. rewrite !map_app, !in_app_iff.
  intros [H|H].
  - destruct (_ && _) in H; simpl in H; intuition discriminate.
  - left.
    destruct (Py.str_in (procedure_type r) ["neg-wo-call"; "oth-single"]);
      simpl in *; [|contradiction].
    destruct (String.eqb (contract_type r) "works"); simpl in *; [|contradiction].
    destruct (Py.and_gt (estimated_value r) 5000000) eqn:E; simpl in *;
      [|contradiction].
    rewrite (and_gt_weaken _ 5000000 200000) by (discriminate || exact E).
    simpl. auto.
Qed.

Lemma works_threshold_implies_non_competitive_witness :
  let r := {| rhr_id := "R6"; buyer_name := Some "Linn"; sector := "construction";
              procedure_type := "neg-wo-call"; contract_type := "works";
              estimated_value := Some 5000001%Q; price_weight := Some 100%Q;
              quality_weight := Some 0%Q; stage1_probability := (1 # 5)%Q |} in
  In "non_competitive_high_value" (findings r ∅ ∅).
Proof.
  intros r.
  apply (works_threshold_implies_non_competitive r ∅ ∅).
  right. left. reflexivity.
Defined.

Lemma price_only_excludes_zero_weights (pw qw : Q) :
  detect_is_price_only pw qw = true -> Py.eq pw 0 && Py.eq qw 0 = false.
Proof.
  intros Hpo.
  destruct (Py.eq pw 0) eqn:Ep; [|reflexivity].
  destruct (Py.eq qw 0) eqn:Eq; [|reflexivity].
  apply eq_spec in Ep, Eq.
  destruct (no_weights_not_price_only pw qw Ep Eq) as (Hgt & Htot & _).
  unfold detect_is_price_only in Hpo. cbv zeta in Hpo.
  rewrite Hgt, Htot, andb_false_r in Hpo. discriminate.
Qed.

Lemma competitive_not_non_competitive (proc : string) :
  Py.str_in proc ["neg-wo-call"; "oth-single"] = true ->
  Py.str_in proc ["open"; "restricted"; "neg-w-call"] = false.
Proof.
  intros H. apply str_in_spec in H.
  destruct (Py.str_in proc ["open"; "restricted"; "neg-w-call"]) eqn:E;
    [|reflexivity].
  apply str_in_spec in E. simpl in *. intuition congruence.
Qed.

Lemma in_ids_if (c : bool) (k : string) (d : detail) (y : string) :
  In y (map fst (if c then [(k, d)] else [])) <-> c = true /\ y = k.
Proof. destruct c; simpl; intuition congruence. Qed.

Lemma works_not_services (ctype : string) :
  String.eqb ctype "works" = true -> String.eqb ctype "services" = false.
Proof. intros H. apply String.eqb_eq in H. subst. reflexivity. Qed.

(** X3: the [no_criteria] finding never comes together with
    [price_only_high_services], nor with one of the two findings on
    non-competitive procedures. *)
Theorem no_criteria_excludes r buyer_profiles titles_data :
  In "no_criteria" (findings r buyer_profiles titles_data) ->
  ~ In "price_only_high_services" (findings r buyer_profiles titles_data)
  /\ ~ In "non_competitive_high_value" (findings r buyer_profiles titles_data)
  /\ ~ In "single_source_works_threshold" (findings r buyer_profiles titles_data).
Proof.
  rewrite !findings_criteria, !findings_procedure by (simpl; auto).
  unfold criteria_issues, procedure_issues. cbv zeta.
  rewrite !map_app, !in_app_iff, !in_ids_if, !andb_true_iff.
  intros [[_ [=]]|[[Hz Hc] _]].
  assert (Hn : Py.str_in (procedure_type r) ["neg-wo-call"; "oth-single"] = false).
  { destruct (Py.str_in (procedure_type r) ["neg-wo-call"; "oth-single"]) eqn:E;
      [|reflexivity].
    apply competitive_not_non_competitive in E. congruence. }
  assert (Hpo : detect_is_price_only (default 0%Q (price_weight r))
                  (default 0%Q (quality_weight r)) = false).
  { destruct (detect_is_price_only _ _) eqn:E; [|reflexivity].
    apply price_only_excludes_zero_weights in E.
    apply andb_false_iff in E. intuition congruence. }
  rewrite Hn, Hpo. intuition discriminate.
Qed.

Lemma no_criteria_excludes_witness :
  let r := {| rhr_id := "R7"; buyer_name := Some "Kool"; sector := "education";
              procedure_type := "restricted"; contract_type := "services";
              estimated_value := Some 900000%Q; price_weight := None;
              quality_weight := None; stage1_probability := (1 # 8)%Q |} in
  ~ In "price_only_high_services" (findings r ∅ ∅)
  /\ ~ In "non_competitive_high_value" (findings r ∅ ∅)
  /\ ~ In "single_source_works_threshold" (findings r ∅ ∅).
Proof.
  intros r. apply (no_criteria_excludes r ∅ ∅). left. reflexivity.
Defined.

(** The procedure and criteria groups give at most two findings together:
    works and services exclude each other, and so do price-only and
    missing weights, and the two families of procedures. *)
Lemma procedure_criteria_at_most_two r :
  length (procedure_issues r) + length (criteria_issues r) <= 2.
Proof.
  unfold procedure_issues, criteria_issues. cbv zeta. rewrite !length_app.
  destruct (Py.str_in (procedure_type r) ["neg-wo-call"; "oth-single"]) eqn:Ea.
  - rewrite (competitive_not_non_competitive _ Ea), andb_false_r.
    destruct (String.eqb (contract_type r) "works") eqn:Ew.
    + rewrite (works_not_services _ Ew), !andb_false_r.
      destruct (Py.and_gt _ 200000); destruct (Py.and_gt _ 5000000); simpl; lia.
    + rewrite andb_false_r. simpl.
      destruct (Py.and_gt _ 200000); destruct (_ && _ && _); simpl; lia.
  - simpl.
    destruct (detect_is_price_only _ _) eqn:E.
    + rewrite (price_only_excludes_zero_weights _ _ E). simpl.
      destruct (_ && _); simpl; lia.
    + simpl. destruct (_ && _); simpl; lia.
Qed.

(** X4: a record never gets more than six findings. *)
Theorem at_most_six_findings r buyer_profiles titles_data :
  length (findings r buyer_profiles titles_data) <= 6.
Proof.
  rewrite findings_parts, !map_app, !length_app, !length_map.
  pose proof (procedure_criteria_at_most_two r) as H1.
  pose proof (sublist_length _ _ (brand_ids_sublist r titles_data)) as H3.
  pose proof (sublist_length _ _ (buyer_ids_sublist r buyer_profiles)) as H4.
  pose proof (sublist_length _ _ (data_ids_sublist r)) as H5.
  rewrite !length_map in *. simpl in *. lia.
Qed.

(** Six findings are reached. *)
Example six_findings :
  let r := {| rhr_id := "R8"; buyer_name := Some ""; sector := "IT";
              procedure_type := "oth-single"; contract_type := "works";
              estimated_value := Some 7000000%Q; price_weight := Some 100%Q;
              quality_weight := Some 0%Q; stage1_probability := (1 # 2)%Q |} in
  let profile : gmap string Q :=
    {[ "procurement_count" := 40%Q; "single_bidder_rate" := (3 # 4)%Q;
       "price_only_rate" := 1%Q; "vako_disputes" := 5%Q ]} in
  findings r {[ "" := profile ]} {[ "R8" := {[ "title" := "IBM mainframe works" ]} ]}
  = [ "non_competitive_high_value"; "single_source_works_threshold";
      "brand_name_restriction"; "low_competition_buyer";
      "price_only_disputed_buyer"; "missing_buyer" ].
Proof. reflexivity. Qed.

Lemma detect_clear_errors_inv (df : list row) buyer_profiles titles_data
    (f : flag) :
  In f (detect_clear_errors df buyer_profiles titles_data) ->
  exists r issue,
    In r df /\ In issue (row_issues r buyer_profiles titles_data)
    /\ f = make_flag r issue.
Proof.
  unfold detect_clear_errors. intros H. apply in_flat_map in H.
  destruct H as (r & Hr & H). apply in_map_iff in H.
  destruct H as (issue & <- & Hi). eauto.
Qed.

Lemma row_issues_rule_order r buyer_profiles titles_data
    (issue : string * detail) :
  In issue (row_issues r buyer_profiles titles_data) ->
  In (fst issue) RULE_ORDER.
Proof.
  intros H.
  apply (sublist_In _ _ _
           (findings_sublist_rule_order r buyer_profiles titles_data)).
  unfold findings, detect_clear_errors. simpl. rewrite app_nil_r, map_map.
  apply in_map_iff. exists issue. split; [|exact H].
  destruct issue. reflexivity.
Qed.

(** X5: every flag repeats the id and buyer of a row of the frame, and its
    title is the catalogue title of its rule: the fallback title of
    [COMPLIANCE_RULES.get] is never used. *)
Theorem flags_carry_catalogue_titles (df : list row) buyer_profiles titles_data
    (f : flag) :
  In f (detect_clear_errors df buyer_profiles titles_data) ->
  (exists r, In r df /\ flag_rhr_id f = rhr_id r
             /\ flag_buyer_name f = buyer_name r)
  /\ (exists severity,
        rule_lookup COMPLIANCE_RULES (rule_id f) = Some (issue_title f, severity)).
Proof.
  intros H. apply detect_clear_errors_inv in H.
  destruct H as (r & [rule det] & Hr & Hi & ->).
  split; [exists r; auto|].
  apply row_issues_rule_order in Hi. simpl in Hi.
  unfold make_flag. simpl.
  destruct Hi as [<-|[<-|[<-|[<-|[<-|[<-|[<-|[<-|[]]]]]]]]];
    eexists; reflexivity.
Qed.

Lemma flags_carry_catalogue_titles_witness :
  let r := {| rhr_id := "R9"; buyer_name := None; sector := "energy";
              procedure_type := "open"; contract_type := "supplies";
              estimated_value := None; price_weight := Some 1%Q;
              quality_weight := Some 1%Q; stage1_probability := 0%Q |} in
  let f := make_flag r ("missing_buyer", MissingBuyerDetail) in
  (exists r', In r' [r] /\ flag_rhr_id f = rhr_id r'
              /\ flag_buyer_name f = buyer_name r')
  /\ (exists severity,
        rule_lookup COMPLIANCE_RULES (rule_id f) = Some (issue_title f, severity)).
Proof.
  intros r f.
  apply (flags_carry_catalogue_titles [r] ∅ ∅ f). left. reflexivity.
Defined.

(** X6: the [low_competition_buyer] finding is emitted exactly when the buyer
    has a profile with at least 10 procurements and a single-bidder rate of
    at least 0.6 (the outer threshold of 5 procurements adds nothing). *)
Theorem low_competition_buyer_iff r buyer_profiles titles_data :
  In "low_competition_buyer" (findings r buyer_profiles titles_data) <->
  exists (b : string) (profile : gmap string Q),
    buyer_name r = Some b
    /\ buyer_profiles !! b = Some profile
    /\ (10 <= Py.get profile "procurement_count" 0)%Q
    /\ (6 # 10 <= Py.get profile "single_bidder_rate" 0)%Q.
Proof.
  rewrite findings_buyer by (simpl; auto).
  unfold buyer_issues.
  destruct (profile_of r buyer_profiles) as [profile|] eqn:Hp.
  - apply profile_of_Some in Hp. destruct Hp as (b & Hb & Hp).
    assert (Hiff : (exists (b0 : string) (profile0 : gmap string Q),
                      buyer_name r = Some b0
                      /\ buyer_profiles !! b0 = Some profile0
                      /\ (10 <= Py.get profile0 "procurement_count" 0)%Q
                      /\ (6 # 10 <= Py.get profile0 "single_bidder_rate" 0)%Q)
                   <-> (10 <= Py.get profile "procurement_count" 0)%Q
                       /\ (6 # 10 <= Py.get profile "single_bidder_rate" 0)%Q).
    { split.
      - intros (b0 & p0 & Hb0 & Hp0 & H). congruence.
      - intros H. exists b, profile. auto. }
    rewrite Hiff. clear Hiff.
    unfold profile_active.
    destruct (Py.dict_truthy profile) eqn:Ht; simpl.
    + destruct (Py.ge (Py.get profile "procurement_count" 0%Q) 5) eqn:H5.
      * rewrite map_app, in_app_iff, !in_ids_if, andb_true_iff, !ge_spec.
        intuition discriminate.
      * simpl. split; [contradiction|]. intros [H10 _].
        assert (Py.ge (Py.get profile "procurement_count" 0%Q) 5 = true).
        { apply ge_spec. eapply Qle_trans; [|exact H10]. discriminate. }
        congruence.
    + split; [contradiction|]. intros [H10 _].
      assert (Py.dict_truthy profile = true)
        by (eapply get_pos_truthy; [|exact H10]; reflexivity).
      congruence.
  - simpl. split; [contradiction|].
    intros (b & profile & Hb & Hp' & _).
    assert (profile_of r buyer_profiles = Some profile)
      by (apply profile_of_Some; eauto).
    congruence.
Qed.

(** X7: the [missing_buyer] finding is emitted exactly when the buyer name
    is absent or empty. *)
Theorem missing_buyer_iff r buyer_profiles titles_data :
  In "missing_buyer" (findings r buyer_profiles titles_data) <->
  buyer_name r = None \/ buyer_name r = Some "".
Proof.
  rewrite findings_data. unfold data_issues.
  destruct (buyer_name r) as [[|c b]|]; simpl; intuition congruence.
Qed.

End DetectMore.

(** ** The regular-expression search *)

Section ReFacts.
Import App Parts.

(** A match at a position is a prefix of the rest of the subject. *)
Lemma match_here_prefix (p : list Re.item) :
  forall (prev : option ascii) (s m : string),
    Re.match_here p prev s = Some m -> exists post, s = m +:+ post.
Proof.
  induction p as [|it p' IH]; intros prev s m; simpl.
  - intros [= <-]. exists s. reflexivity.
  - destruct it.
    + destruct (Re.at_boundary prev s); [apply IH | discriminate].
    + destruct s as [|a s']; [discriminate|].
      destruct (Re.is_newline a); [discriminate|].
      destruct (Re.match_here p' (Some a) s') as [m'|] eqn:E; [|discriminate].
      intros [= <-]. apply IH in E. destruct E as (post & ->).
      exists post. reflexivity.
    + revert prev m. induction s as [|a s' IHs]; intros prev m.
      * apply IH.
      * destruct (Re.is_newline a); [apply IH|].
        match goal with
        | |- context [match ?star (Some a) s' with _ => _ end] =>
            destruct (star (Some a) s') as [m'|] eqn:E
        end.
        -- intros [= <-]. apply IHs in E. destruct E as (post & ->).
           exists post. reflexivity.
        -- apply IH.
    + destruct s as [|a s']; [discriminate|].
      destruct (Re.eq_ci a c); [|discriminate].
      destruct (Re.match_here p' (Some a) s') as [m'|] eqn:E; [|discriminate].
      intros [= <-]. apply IH in E. destruct E as (post & ->).
      exists post. reflexivity.
Qed.

Lemma search_from_occurrence (p : list Re.item) :
  forall (s : string) (prev : option ascii) (m : string),
    Re.search_from p prev s = Some m ->
    exists pre post, s = pre +:+ m +:+ post.
Proof.
  induction s as [|a s' IH]; intros prev m; simpl.
  - destruct (Re.match_here p prev "") as [m'|] eqn:E; [|discriminate].
    intros [= <-]. apply match_here_prefix in E. destruct E as (post & E).
    exists "", post. exact E.
  - destruct (Re.match_here p prev (String a s')) as [m'|] eqn:E.
    + intros [= <-]. apply match_here_prefix in E. destruct E as (post & E).
      exists "", post. exact E.
    + intros H. apply IH in H. destruct H as (pre & post & ->).
      exists (String a pre), post. reflexivity.
Qed.

(** The text returned by [re.search] occurs in the subject. *)
Lemma search_occurrence (pattern s m : string) :
  Re.search pattern s = Some m -> exists pre post, s = pre +:+ m +:+ post.
Proof. apply search_from_occurrence. Qed.

Lemma brand_scan_occurrence (patterns : list string) (title_text : string)
    (issue : string * detail) :
  In issue (brand_scan patterns title_text) ->
  exists m pre post,
    issue = ("brand_name_restriction",
              BrandDetail m (Py.slice_to 120 title_text))
    /\ title_text = pre +:+ m +:+ post.
Proof.
  induction patterns as [|pattern rest IH]; simpl; [contradiction|].
  destruct (Re.search pattern title_text) as [m|] eqn:E; [|exact IH].
  intros [<-|[]]. apply search_occurrence in E.
  destruct E as (pre & post & E). eauto 6.
Qed.

(** X8: a flag of the rule [brand_name_restriction] quotes a text that
    occurs in the title of its record, together with the first 120
    characters of that title. *)
Theorem brand_flag_quotes_title (df : list row)
    (buyer_profiles : gmap string (gmap string Q))
    (titles_data : gmap string (gmap string string)) (f : flag) :
  In f (detect_clear_errors df buyer_profiles titles_data) ->
  rule_id f = "brand_name_restriction" ->
  exists r m pre post,
    In r df /\ flag_rhr_id f = rhr_id r
    /\ issue_detail f = BrandDetail m (Py.slice_to 120 (title_of r titles_data))
    /\ title_of r titles_data = pre +:+ m +:+ post.
Proof.
  intros H Hrule. apply detect_clear_errors_inv in H.
  destruct H as (r & [rule det] & Hr & Hi & ->). simpl in Hrule. subst rule.
  rewrite row_issues_parts, !in_app_iff in Hi.
  destruct Hi as [H|[H|[H|[H|H]]]].
  - apply procedure_issues_rules in H. simpl in H. intuition discriminate.
  - apply criteria_issues_rules in H. simpl in H. intuition discriminate.
  - unfold brand_issues in H.
    destruct (Py.str_truthy (title_of r titles_data)); [|contradiction].
    apply brand_scan_occurrence in H.
    destruct H as (m & pre & post & [= ->] & E).
    exists r, m, pre, post. auto.
  - apply buyer_issues_rules in H. simpl in H. intuition discriminate.
  - apply data_issues_rules in H. discriminate.
Qed.

Lemma brand_flag_quotes_title_witness :
  let r := {| rhr_id := "R10"; buyer_name := Some "Amet"; sector := "IT";
              procedure_type := "open"; contract_type := "supplies";
              estimated_value := Some 40000%Q; price_weight := Some 70%Q;
              quality_weight := Some 30%Q; stage1_probability := (1 # 40)%Q |} in
  let titles : gmap string (gmap string string) :=
    {[ "R10" := {[ "title" := "Dell sulearvutid" ]} ]} in
  let f := make_flag r ("brand_name_restriction",
                         BrandDetail "Dell" "Dell sulearvutid") in
  exists r' m pre post,
    In r' [r] /\ flag_rhr_id f = rhr_id r'
    /\ issue_detail f = BrandDetail m (Py.slice_to 120 (title_of r' titles))
    /\ title_of r' titles = pre +:+ m +:+ post.
Proof.
  intros r titles f.
  apply (brand_flag_quotes_title [r] ∅ titles f); [left|]; reflexivity.
Defined.

End ReFacts.

(** ** More on the recommendation synthesiser *)

Section ChecklistMore.
Import App Parts.

Lemma dedup_NoDup (actions : list action_item) :
  forall seen : gset string, NoDup (map action_text (dedup seen actions)).
Proof.
  induction actions as [|[[priority action] rationale] rest IH];
    intros seen; simpl.
  - constructor.
  - destruct (bool_decide (action ∈ seen)); [apply IH|].
    simpl. unfold action_text at 1. simpl. constructor; [|apply IH].
    intros Hin. apply list_elem_of_In, dedup_texts in Hin.
    destruct Hin as [_ Hseen]. apply Hseen, elem_of_union. left.
    apply elem_of_singleton. reflexivity.
Qed.

(** X9: the checklist never holds two actions with the same text. *)
Theorem checklist_texts_unique
    (monthly_rec : option row) (feat_rec : option feat_rec)
    (llm_result : option (gmap string string))
    (profile : option (gmap string Q))
    (contrib_df : option (list (string * Q))) :
  NoDup (map action_text
           (_generate_action_checklist monthly_rec feat_rec llm_result profile
              contrib_df)).
Proof. apply dedup_NoDup. Qed.

Lemma dedup_keeps_unique (actions : list action_item) :
  forall seen : gset string,
    NoDup (map action_text actions) ->
    (forall t, In t (map action_text actions) -> t ∉ seen) ->
    dedup seen actions = actions.
Proof.
  induction actions as [|[[priority action] rationale] rest IH];
    intros seen Hnd Hseen; simpl; [reflexivity|].
  simpl in Hnd. unfold action_text at 1 in Hnd. simpl in Hnd.
  apply NoDup_cons in Hnd. destruct Hnd as [Hnotin Hnd].
  rewrite bool_decide_eq_false_2
    by (apply Hseen; left; reflexivity).
  f_equal. apply IH; [exact Hnd|].
  intros t Ht Hin. apply elem_of_union in Hin. destruct Hin as [Hin|Hin].
  - apply elem_of_singleton in Hin. subst t.
    apply Hnotin, list_elem_of_In, Ht.
  - revert Hin. apply Hseen. right. exact Ht.
Qed.

Lemma sublist_if {A} (c : bool) (x : A) (l : list A) :
  [x] `sublist_of` l -> (if c then [x] else []) `sublist_of` l.
Proof. destruct c; [tauto | intros _; apply sublist_nil_l]. Qed.

Lemma checklist_texts_in_order
    (monthly_rec : option row) (feat_rec : option feat_rec)
    (llm_result : option (gmap string string))
    (profile : option (gmap string Q)) :
  map action_text (checklist_actions monthly_rec feat_rec llm_result profile)
  `sublist_of` ACTION_ORDER.
Proof.
  rewrite checklist_actions_parts, !map_app.
  change ACTION_ORDER with
    ([ "Conduct pre-publication legal review of tender documents" ]
     ++ [ "Document justification for negotiated procedure";
          "Verify exemption grounds for non-competitive procedure" ]
     ++ [ "Consider adding quality criteria to evaluation";
          scoring_methodology ]
     ++ [ "Review qualification requirements for proportionality";
          "Replace brand-specific requirements with functional specifications";
          "Clarify subjective evaluation criteria" ]
     ++ [ "Consider market engagement before publication";
          "Review lessons from previous disputes" ]
     ++ [ "Check for unintentional vendor lock-in in technical specifications" ]).
  repeat apply sublist_app.
  - unfold value_actions. destruct (Py.and_gt _ _); simpl;
      [reflexivity | apply sublist_nil_l].
  - unfold procedure_actions.
    destruct (String.eqb _ _); [|destruct (_ && _)]; simpl.
    + apply sublist_skip, sublist_nil_l.
    + apply sublist_cons, sublist_skip, sublist_nil_l.
    + apply sublist_nil_l.
  - unfold criteria_actions.
    destruct (_ && _ && _); [|destruct (_ && _)]; simpl.
    + apply sublist_skip, sublist_nil_l.
    + apply sublist_cons, sublist_skip, sublist_nil_l.
    + apply sublist_nil_l.
  - unfold llm_actions. destruct llm_result as [llm|]; [|apply sublist_nil_l].
    destruct (Py.dict_truthy llm); [|apply sublist_nil_l]. cbv zeta.
    rewrite !map_app.
    apply (sublist_app _ [_] _ [_; _]); [|apply (sublist_app _ [_] _ [_])].
    + destruct (_ || _); simpl; [reflexivity | apply sublist_nil_l].
    + destruct (_ || _); simpl; [reflexivity | apply sublist_nil_l].
    + destruct (_ || _ || _); simpl; [reflexivity | apply sublist_nil_l].
  - unfold buyer_actions. destruct profile as [pr|]; [|apply sublist_nil_l].
    destruct (Py.dict_truthy pr); [|apply sublist_nil_l].
    rewrite !map_app. apply (sublist_app _ [_] _ [_]).
    + destruct (Py.gt _ _); simpl; [reflexivity | apply sublist_nil_l].
    + destruct (Py.ge _ _); simpl; [reflexivity | apply sublist_nil_l].
  - unfold sector_actions. destruct (_ && _); simpl;
      [reflexivity | apply sublist_nil_l].
Qed.

Lemma ACTION_ORDER_NoDup : NoDup ACTION_ORDER.
Proof. apply (bool_decide_unpack _). vm_compute. exact I. Qed.

(** X10: the actions are generated with pairwise different texts, in the
    order of the source, so the deduplication step removes nothing: the
    checklist is the generated list. At most nine actions are returned. *)
Theorem checklist_is_generated_list
    (monthly_rec : option row) (feat_rec : option feat_rec)
    (llm_result : option (gmap string string))
    (profile : option (gmap string Q))
    (contrib_df : option (list (string * Q))) :
  let checklist := _generate_action_checklist monthly_rec feat_rec llm_result
                     profile contrib_df in
  checklist = checklist_actions monthly_rec feat_rec llm_result profile
  /\ map action_text checklist `sublist_of` ACTION_ORDER
  /\ length checklist <= 9.
Proof.
  pose proof (checklist_texts_in_order monthly_rec feat_rec llm_result profile)
    as Hsub.
  assert (Heq : _generate_action_checklist monthly_rec feat_rec llm_result
                  profile contrib_df
                = checklist_actions monthly_rec feat_rec llm_result profile).
  { unfold _generate_action_checklist. apply dedup_keeps_unique.
    - apply (sublist_NoDup _ ACTION_ORDER); [apply ACTION_ORDER_NoDup | exact Hsub].
    - intros t _. apply not_elem_of_empty. }
  cbv zeta. rewrite Heq. split; [reflexivity|]. split; [exact Hsub|].
  rewrite checklist_actions_parts, !length_app.
  assert (H1 : length (value_actions (monthly_rec ≫= estimated_value)) <= 1).
  { unfold value_actions. destruct (Py.and_gt _ _); simpl; lia. }
  assert (H2 : length (procedure_actions
                         (from_option procedure_type "" monthly_rec)
                         (monthly_rec ≫= estimated_value)) <= 1).
  { unfold procedure_actions.
    destruct (String.eqb _ _); [|destruct (_ && _)]; simpl; lia. }
  assert (H3 : length (criteria_actions
                         (Py.get (checklist_feat feat_rec) "price_weight" 0%Q)
                         (Py.get (checklist_feat feat_rec) "quality_weight" 0%Q)
                         (from_option contract_type "" monthly_rec)
                         (monthly_rec ≫= estimated_value)) <= 1).
  { unfold criteria_actions.
    destruct (_ && _ && _); [|destruct (_ && _)]; simpl; lia. }
  assert (H4 : length (llm_actions llm_result) <= 3).
  { unfold llm_actions. destruct llm_result as [llm|]; [|simpl; lia].
    destruct (Py.dict_truthy llm); [|simpl; lia]. cbv zeta.
    rewrite !length_app.
    destruct (_ || _); destruct (_ || _); destruct (_ || _ || _); simpl; lia. }
  assert (H5 : length (buyer_actions profile) <= 2).
  { unfold buyer_actions. destruct profile as [pr|]; [|simpl; lia].
    destruct (Py.dict_truthy pr); [|simpl; lia].
    rewrite !length_app.
    destruct (Py.gt _ _); destruct (Py.ge _ _); simpl; lia. }
  assert (H6 : length (sector_actions (from_option sector "" monthly_rec)
                         (monthly_rec ≫= estimated_value)) <= 1).
  { unfold sector_actions. destruct (_ && _); simpl; lia. }
  lia.
Qed.

End ChecklistMore.

(** ** More on the comparable match finder *)

Section ComparableMore.
Import App Parts.

Variable np_exp : Q -> Q.

Lemma ge_total (a b : Q) : Py.ge a b = true \/ Py.ge b a = true.
Proof.
  rewrite !ge_spec. destruct (Qlt_le_dec a b) as [H|H]; [right|left].
  - apply Qlt_le_weak. exact H.
  - exact H.
Qed.

Lemma ranks_before_total (a b : comparable) : ranks_before a b \/ ranks_before b a.
Proof.
  unfold ranks_before, cmp_before_eq.
  destruct (cmp_disputed a), (cmp_disputed b); simpl; auto.
  - apply ge_total.
  - apply ge_total.
Qed.

Lemma ranks_before_trans (a b c : comparable) :
  ranks_before a b -> ranks_before b c -> ranks_before a c.
Proof.
  unfold ranks_before, cmp_before_eq.
  destruct (cmp_disputed a), (cmp_disputed b), (cmp_disputed c); simpl;
    try discriminate; try reflexivity; rewrite !ge_spec;
    intros H1 H2; eapply Qle_trans; eauto.
Qed.

Lemma insert_sorted_In {A} (leb : A -> A -> bool) (x y : A) (l : list A) :
  In y (insert_sorted leb x l) <-> y = x \/ In y l.
Proof.
  induction l as [|z l IH]; simpl.
  - intuition.
  - destruct (leb x z); simpl; [intuition|]. rewrite IH. intuition.
Qed.

Lemma insert_sorted_strongly (x : comparable) (l : list comparable) :
  StronglySorted ranks_before l ->
  StronglySorted ranks_before (insert_sorted cmp_before_eq x l).
Proof.
  induction l as [|y l IH]; intros Hs; simpl.
  - repeat constructor.
  - apply StronglySorted_inv in Hs. destruct Hs as [Hl Hy].
    destruct (cmp_before_eq x y) eqn:E.
    + constructor; [constructor; assumption|].
      constructor; [exact E|].
      eapply Forall_impl; [exact Hy|].
      intros z Hz. eapply ranks_before_trans; [exact E | exact Hz].
    + constructor; [apply IH; exact Hl|].
      apply Forall_forall. intros z Hz.
      apply list_elem_of_In, insert_sorted_In in Hz. destruct Hz as [->|Hz].
      * destruct (ranks_before_total x y) as [H|H]; [|exact H].
        unfold ranks_before in H. congruence.
      * rewrite Forall_forall in Hy. apply Hy, list_elem_of_In, Hz.
Qed.

Lemma sort_by_strongly (l : list comparable) :
  StronglySorted ranks_before (sort_by cmp_before_eq l).
Proof.
  induction l as [|x l IH]; simpl; [constructor|].
  apply insert_sorted_strongly, IH.
Qed.

(** X11: the rows of the result are ordered: every row ranks before all the
    rows after it (disputed rows first, then by descending score). *)
Theorem comparables_sorted
    (features_dict : list (string * feat_rec))
    (disputes_data : gmap string (gmap string (gmap string string)))
    (titles_data : gmap string (gmap string string))
    (sector procedure contract_type : string) (value : option Q)
    (exclude_rhr : string) :
  StronglySorted ranks_before
    (_find_comparable_procurements np_exp features_dict disputes_data
       titles_data sector procedure contract_type value exclude_rhr).
Proof.
  unfold _find_comparable_procurements. cbv zeta.
  destruct (negb (Py.list_truthy _)); [constructor|].
  match goal with
  | |- StronglySorted _ (take 20 ?l) =>
      pose proof (sort_by_strongly
                    (omap (fun '(rhr_id, rec) =>
                             comparable_row np_exp (dispute_ids disputes_data)
                               titles_data sector procedure value exclude_rhr
                               rhr_id rec) features_dict)) as Hs;
      rewrite <- (take_drop 20 l) in Hs
  end.
  apply StronglySorted_app_1_l in Hs. exact Hs.
Qed.

Lemma ne_false_eq (a b : Q) : Py.ne a b = false -> (a == b)%Q.
Proof.
  unfold Py.ne. rewrite negb_false_iff. apply Qeq_bool_iff.
Qed.

Lemma str_truthy_nonempty (s : string) : s <> "" -> Py.str_truthy s = true.
Proof. destruct s; [congruence | reflexivity]. Qed.

(** What a kept row tells about its record. *)
Lemma comparable_row_inv (ids : gset string)
    (titles_data : gmap string (gmap string string))
    (sector procedure : string) (value : option Q) (exclude_rhr rhr_id : string)
    (rec : feat_rec) (c : comparable) :
  comparable_row np_exp ids titles_data sector procedure value exclude_rhr
    rhr_id rec = Some c ->
  cmp_rhr_id c = rhr_id
  /\ cmp_disputed c = bool_decide (rhr_id ∈ ids)
  /\ cmp_score c = default 0%Q (rec_stage1_probability rec)
  /\ cmp_value c =
     (if value_known rec
      then Some (np_exp (Py.get (feat_of rec) "log_estimated_value" 0%Q))
      else None)
  /\ (sector <> "" -> (Py.get (feat_of rec) ("sector_" +:+ sector) 0 == 1)%Q)
  /\ (procedure <> "" -> (Py.get (feat_of rec) ("proc_" +:+ procedure) 0 == 1)%Q)
  /\ (forall v cv, value = Some v -> ~ (v == 0)%Q -> cmp_value c = Some cv ->
      (v / 3 <= cv /\ cv <= v * 3)%Q).
Proof.
  unfold comparable_row. fold (feat_of rec).
  destruct (String.eqb rhr_id exclude_rhr); [discriminate|]. cbv zeta.
  fold (value_known rec).
  destruct (Py.str_truthy sector && _) eqn:Es; [discriminate|].
  destruct (Py.str_truthy procedure && _) eqn:Ep; [discriminate|].
  destruct (Py.truthy_opt value && value_known rec && _) eqn:Ev; [discriminate|].
  intros [= <-]. simpl. repeat split.
  - intros Hs. apply str_truthy_nonempty in Hs. rewrite Hs in Es.
    apply ne_false_eq. exact Es.
  - intros Hp. apply str_truthy_nonempty in Hp. rewrite Hp in Ep.
    apply ne_false_eq. exact Ep.
  - destruct (value_known rec); [|discriminate].
    rewrite H in Ev. simpl in Ev.
    assert (Ht : Py.truthy v = true) by (apply truthy_spec; assumption).
    rewrite Ht in Ev. simpl in Ev.
    apply orb_false_iff in Ev. destruct Ev as [Ev _].
    injection H1 as <-.
    destruct (Qlt_le_dec (np_exp (Py.get (feat_of rec) "log_estimated_value" 0%Q))
                (v / 3)%Q) as [Hlt|Hle]; [|exact Hle].
    apply lt_spec in Hlt. congruence.
  - destruct (value_known rec); [|discriminate].
    rewrite H in Ev. simpl in Ev.
    assert (Ht : Py.truthy v = true) by (apply truthy_spec; assumption).
    rewrite Ht in Ev. simpl in Ev.
    apply orb_false_iff in Ev. destruct Ev as [_ Ev].
    injection H1 as <-.
    destruct (Qlt_le_dec (v * 3)%Q
                (np_exp (Py.get (feat_of rec) "log_estimated_value" 0%Q)))
      as [Hlt|Hle]; [|exact Hle].
    apply gt_spec in Hlt. congruence.
Qed.

Lemma comparables_from_rows
    (features_dict : list (string * feat_rec))
    (disputes_data : gmap string (gmap string (gmap string string)))
    (titles_data : gmap string (gmap string string))
    (sector procedure contract_type : string) (value : option Q)
    (exclude_rhr : string) (c : comparable) :
  In c (_find_comparable_procurements np_exp features_dict disputes_data
          titles_data sector procedure contract_type value exclude_rhr) ->
  exists rhr_id rec,
    In (rhr_id, rec) features_dict
    /\ comparable_row np_exp (dispute_ids disputes_data) titles_data sector
         procedure value exclude_rhr rhr_id rec = Some c.
Proof.
  unfold _find_comparable_procurements. cbv zeta.
  destruct (negb (Py.list_truthy _)); [contradiction|].
  intros H. apply list_elem_of_In in H.
  apply (sublist_subseteq _ _ (sublist_take _ 20)) in H.
  apply list_elem_of_In in H.
  apply (Permutation_in _ (sort_by_perm cmp_before_eq _)) in H.
  apply list_elem_of_In, list_elem_of_omap in H.
  destruct H as ([rhr_id rec] & Hin & Hrow).
  exists rhr_id, rec. split; [apply list_elem_of_In, Hin | exact Hrow].
Qed.

(** X12: every returned row comes from a record of the corpus and matches
    the query: the record carries the sector and procedure indicators that
    were asked for, and the row tells whether the record is in the dispute
    ledger and repeats its score. *)
Theorem comparables_match_query
    (features_dict : list (string * feat_rec))
    (disputes_data : gmap string (gmap string (gmap string string)))
    (titles_data : gmap string (gmap string string))
    (sector procedure contract_type : string) (value : option Q)
    (exclude_rhr : string) :
  Forall (fun c =>
            exists rec,
              In (cmp_rhr_id c, rec) features_dict
              /\ (sector <> "" ->
                  (Py.get (feat_of rec) ("sector_" +:+ sector) 0 == 1)%Q)
              /\ (procedure <> "" ->
                  (Py.get (feat_of rec) ("proc_" +:+ procedure) 0 == 1)%Q)
              /\ cmp_disputed c
                 = bool_decide (cmp_rhr_id c ∈ dispute_ids disputes_data)
              /\ cmp_score c = default 0%Q (rec_stage1_probability rec))
    (_find_comparable_procurements np_exp features_dict disputes_data
       titles_data sector procedure contract_type value exclude_rhr).
Proof.
  apply List.Forall_forall. intros c Hc.
  apply comparables_from_rows in Hc. destruct Hc as (rhr_id & rec & Hin & Hrow).
  apply comparable_row_inv in Hrow.
  destruct Hrow as (Hid & Hd & Hsc & _ & Hs & Hp & _).
  exists rec. rewrite Hid. auto 6.
Qed.

(** X13: when a target value is given, every returned row with a known value
    lies within the band from a third of the target value to three times
    the target value. *)
Theorem comparables_within_value_band
    (features_dict : list (string * feat_rec))
    (disputes_data : gmap string (gmap string (gmap string string)))
    (titles_data : gmap string (gmap string string))
    (sector procedure contract_type : string) (value : option Q)
    (exclude_rhr : string) :
  Forall (fun c =>
            forall v cv,
              value = Some v -> ~ (v == 0)%Q -> cmp_value c = Some cv ->
              (v / 3 <= cv /\ cv <= v * 3)%Q)
    (_find_comparable_procurements np_exp features_dict disputes_data
       titles_data sector procedure contract_type value exclude_rhr).
Proof.
  apply List.Forall_forall. intros c Hc.
  apply comparables_from_rows in Hc. destruct Hc as (rhr_id & rec & Hin & Hrow).
  apply comparable_row_inv in Hrow. apply Hrow.
Qed.

(** X14: a record whose value is unknown is kept or dropped regardless of
    the target value: the value filter never excludes it. *)
Theorem unknown_value_passes_value_filter (ids : gset string)
    (titles_data : gmap string (gmap string string))
    (sector procedure : string) (value : option Q) (exclude_rhr rhr_id : string)
    (rec : feat_rec) :
  value_known rec = false ->
  comparable_row np_exp ids titles_data sector procedure value exclude_rhr
    rhr_id rec
  = comparable_row np_exp ids titles_data sector procedure None exclude_rhr
      rhr_id rec.
Proof.
  intros Hk. unfold comparable_row. fold (feat_of rec). cbv zeta.
  fold (value_known rec). rewrite Hk, andb_false_r. reflexivity.
Qed.

(** X15: the result is the sorted list of kept rows cut at 20: its length is
    the smaller of 20 and the number of kept rows, and when at most 20 rows
    are kept it is a rearrangement of them. *)
Theorem comparables_only_truncated
    (features_dict : list (string * feat_rec))
    (disputes_data : gmap string (gmap string (gmap string string)))
    (titles_data : gmap string (gmap string string))
    (sector procedure contract_type : string) (value : option Q)
    (exclude_rhr : string) :
  let rows :=
    omap (fun '(rhr_id, rec) =>
            comparable_row np_exp (dispute_ids disputes_data) titles_data
              sector procedure value exclude_rhr rhr_id rec) features_dict in
  let result := _find_comparable_procurements np_exp features_dict disputes_data
                  titles_data sector procedure contract_type value exclude_rhr in
  length result = Nat.min 20 (length rows)
  /\ (length rows <= 20 -> Permutation rows result).
Proof.
  intros rows result. subst result. unfold _find_comparable_procurements.
  cbv zeta. fold rows.
  destruct rows as [|c rows'] eqn:E; simpl Py.list_truthy; cbv iota.
  - simpl. split; [reflexivity | intros _; constructor].
  - simpl negb. cbv iota. rewrite length_take.
    rewrite (Permutation_length (sort_by_perm cmp_before_eq (c :: rows'))).
    split; [reflexivity|].
    intros Hle. rewrite take_ge.
    + apply Permutation_sym, sort_by_perm.
    + rewrite (Permutation_length (sort_by_perm cmp_before_eq (c :: rows'))).
      exact Hle.
Qed.

End ComparableMore.

Lemma unknown_value_passes_value_filter_witness :
  let rec := {| App.features := Some {[ "sector_IT" := 1%Q ]};
                App.rec_buyer_name := Some "Amet";
                App.rec_stage1_probability := Some (1 # 10)%Q |} in
  App.comparable_row (fun x => x) ∅ ∅ "IT" "" (Some 1000000%Q) "R11" "R12" rec
  = App.comparable_row (fun x => x) ∅ ∅ "IT" "" None "R11" "R12" rec.
Proof.
  intros rec.
  apply (unknown_value_passes_value_filter (fun x => x) ∅ ∅ "IT" ""
           (Some 1000000%Q) "R11" "R12" rec).
  reflexivity.
Defined.

(** ** More on the sector benchmark aggregator *)

Section BenchMore.
Import App Parts.

Variable np_exp : Q -> Q.

Lemma bench_step_inv (ids : gset string) (sector : string) (acc : bench_acc)
    (item : string * feat_rec) :
  bench_inv acc -> bench_inv (bench_step np_exp ids sector acc item).
Proof.
  destruct item as [rhr_id rec]. unfold bench_step, bench_inv.
  intros (Hd & Hp & Hv & Hq).
  destruct (negb (Py.truthy _)); [auto|]. cbv zeta. simpl.
  repeat split.
  - destruct (bool_decide _); lia.
  - destruct (bench_is_price_only _ _); lia.
  - destruct (negb (Py.truthy (Py.get _ "value_missing" _)));
      [rewrite length_app; simpl|]; lia.
  - destruct (Py.gt _ 0) eqn:E; [|exact Hq].
    apply Forall_app. split; [exact Hq|].
    constructor; [|constructor]. apply gt_spec. exact E.
Qed.

Lemma bench_fold_inv (ids : gset string) (sector : string)
    (features_dict : list (string * feat_rec)) (acc : bench_acc) :
  bench_inv acc ->
  bench_inv (fold_left (bench_step np_exp ids sector) features_dict acc).
Proof.
  revert acc. induction features_dict as [|item rest IH]; intros acc H; simpl.
  - exact H.
  - apply IH, bench_step_inv, H.
Qed.

Lemma of_nat_fraction (k n : nat) :
  k <= n -> n <> 0 -> (0 <= of_nat k / of_nat n /\ of_nat k / of_nat n <= 1)%Q.
Proof.
  intros Hk Hn. unfold of_nat.
  assert (Hpos : (0 < inject_Z (Z.of_nat n))%Q).
  { change 0%Q with (inject_Z 0). rewrite <- Zlt_Qlt. lia. }
  split.
  - apply Qle_shift_div_l; [exact Hpos|]. rewrite Qmult_0_l.
    change 0%Q with (inject_Z 0). rewrite <- Zle_Qle. lia.
  - apply Qle_shift_div_r; [exact Hpos|]. rewrite Qmult_1_l.
    rewrite <- Zle_Qle. lia.
Qed.

(** X16: a benchmark that is not the empty dict has the six entries; its
    total is the number of corpus records of the sector, and its dispute
    rate and price-only rate are fractions between 0 and 1. *)
Theorem benchmark_entries
    (features_dict : list (string * feat_rec))
    (disputes_data : gmap string (gmap string (gmap string string)))
    (sector : string) :
  let result := _compute_sector_benchmarks np_exp features_dict disputes_data
                  sector in
  result = ∅
  \/ (dom result = ({[ "total"; "dispute_rate"; "median_value"; "mean_value";
                       "price_only_rate"; "avg_quality_weight" ]} : gset string)
      /\ result !! "total"
         = Some (Some (of_nat (length (List.filter (in_sector sector)
                                         features_dict))))
      /\ (exists rate, result !! "dispute_rate" = Some (Some rate)
                       /\ (0 <= rate /\ rate <= 1)%Q)
      /\ (exists rate, result !! "price_only_rate" = Some (Some rate)
                       /\ (0 <= rate /\ rate <= 1)%Q)).
Proof.
  cbv zeta. unfold _compute_sector_benchmarks. cbv zeta.
  pose proof (bench_fold_total_count np_exp (dispute_ids disputes_data) sector
                features_dict bench_init) as Htot.
  simpl total_count in Htot at 2. rewrite Nat.add_0_l in Htot.
  assert (Hinv : bench_inv
                   (fold_left (bench_step np_exp (dispute_ids disputes_data) sector)
                      features_dict bench_init)).
  { apply bench_fold_inv. unfold bench_inv, bench_init. simpl.
    repeat split; try lia. constructor. }
  set (acc := fold_left _ features_dict bench_init) in *.
  destruct Hinv as (Hd & Hp & _ & _).
  destruct (Nat.eqb (total_count acc) 0) eqn:E; [left; reflexivity|right].
  apply Nat.eqb_neq in E. simpl negb. cbv iota.
  split; [|split; [|split]].
  - rewrite !dom_insert_L, dom_empty_L. set_solver.
  - rewrite lookup_insert_eq, Htot. reflexivity.
  - eexists. split.
    + rewrite lookup_insert_ne by discriminate.
      rewrite lookup_insert_eq. reflexivity.
    + apply of_nat_fraction; assumption.
  - eexists. split.
    + do 4 (rewrite lookup_insert_ne by discriminate).
      rewrite lookup_insert_eq. reflexivity.
    + apply of_nat_fraction; assumption.
Qed.

Lemma bench_fold_values (ids : gset string) (sector : string)
    (features_dict : list (string * feat_rec)) (acc : bench_acc) :
  values (fold_left (bench_step np_exp ids sector) features_dict acc) =
  values acc
  ++ map (fun item =>
            np_exp (Py.get (feat_of (snd item)) "log_estimated_value" 0%Q))
       (List.filter (valued_in_sector sector) features_dict).
Proof.
  unfold valued_in_sector, in_sector, value_known, feat_of.
  revert acc. induction features_dict as [|[rhr_id rec] rest IH]; intros acc.
  - simpl. symmetry. apply app_nil_r.
  - simpl fold_left. rewrite IH. simpl List.filter.
    unfold bench_step. simpl snd.
    destruct (Py.truthy (Py.get (default ∅ (features rec)) _ 0%Q)); simpl;
      [|reflexivity].
    destruct (Py.truthy (Py.get (default ∅ (features rec)) "value_missing" 1%Q));
      simpl; [reflexivity|].
    rewrite <- app_assoc. reflexivity.
Qed.

Lemma filter_nonempty_exists {A} (p : A -> bool) (l : list A) :
  List.filter p l <> [] <-> exists x, In x l /\ p x = true.
Proof.
  split.
  - destruct (List.filter p l) as [|x k] eqn:E; [congruence|]. intros _.
    exists x. apply filter_In. rewrite E. left. reflexivity.
  - intros (x & Hx & Hp) E.
    assert (H : In x (List.filter p l)) by (apply filter_In; auto).
    rewrite E in H. exact H.
Qed.

(** X17: the benchmark carries a median value (and a mean value) exactly
    when some record of the sector has a known value; otherwise both
    entries, if present, are [None]. *)
Theorem benchmark_median_when_values_known
    (features_dict : list (string * feat_rec))
    (disputes_data : gmap string (gmap string (gmap string string)))
    (sector : string) :
  let result := _compute_sector_benchmarks np_exp features_dict disputes_data
                  sector in
  ((exists m, result !! "median_value" = Some (Some m))
   <-> exists item, In item features_dict /\ valued_in_sector sector item = true)
  /\ ((exists m, result !! "mean_value" = Some (Some m))
      <-> exists item, In item features_dict
                       /\ valued_in_sector sector item = true).
Proof.
  cbv zeta. unfold _compute_sector_benchmarks. cbv zeta.
  pose proof (bench_fold_total_count np_exp (dispute_ids disputes_data) sector
                features_dict bench_init) as Htot.
  pose proof (bench_fold_values (dispute_ids disputes_data) sector
                features_dict bench_init) as Hval.
  simpl in Htot, Hval.
  set (acc := fold_left _ features_dict bench_init) in *.
  rewrite <- !filter_nonempty_exists.
  assert (Hsome : List.filter (valued_in_sector sector) features_dict <> [] ->
                  total_count acc <> 0).
  { intros Hne. apply filter_nonempty_exists in Hne.
    destruct Hne as (item & Hin & Hv). rewrite Htot.
    apply andb_true_iff in Hv. destruct Hv as [Hs _].
    intros H0. apply filter_length_0 in H0.
    rewrite List.Forall_forall in H0. apply H0 in Hin. congruence. }
  destruct (Nat.eqb (total_count acc) 0) eqn:E.
  - apply Nat.eqb_eq in E.
    split; (split; [intros (m & Hm); rewrite lookup_empty in Hm; discriminate|]);
      intros Hne; apply Hsome in Hne; contradiction.
  - rewrite Hval.
    destruct (List.filter (valued_in_sector sector) features_dict) as [|x k];
      simpl.
    + split; split; try congruence; intros (m & Hm).
      * rewrite lookup_insert_ne, lookup_insert_ne, lookup_insert_eq in Hm
          by discriminate. discriminate.
      * rewrite lookup_insert_ne, lookup_insert_ne, lookup_insert_ne,
          lookup_insert_eq in Hm by discriminate. discriminate.
    + split; split; try discriminate; intros _; eexists.
      * rewrite lookup_insert_ne, lookup_insert_ne, lookup_insert_eq
          by discriminate. reflexivity.
      * rewrite lookup_insert_ne, lookup_insert_ne, lookup_insert_ne,
          lookup_insert_eq by discriminate. reflexivity.
Qed.

End BenchMore.

(** ** More on the quality rubric *)

Section RubricMore.
Import PdfReport Parts.
Local Open Scope Z_scope.

Lemma clamp_mono (a b : Z) : a <= b -> clamp a <= clamp b.
Proof. unfold clamp. lia. Qed.

Lemma clamp_between (lo hi s : Z) :
  0 <= lo -> hi <= 20 -> lo <= s <= hi -> lo <= clamp s <= hi.
Proof. unfold clamp. lia. Qed.

Lemma score_2_bounds (features : gmap string Q) (contract_type : string) :
  4 <= score_2 features contract_type <= 15.
Proof.
  unfold score_2. cbv zeta.
  destruct (rubric_is_price_only _ _) eqn:E.
  - rewrite (price_only_excludes_zero_weights _ _ E).
    destruct (String.eqb contract_type "services");
      apply clamp_between; lia.
  - destruct (Py.gt _ 0 && Py.ge _ (3 # 10));
      [|destruct (Py.gt _ 0 && Py.ge _ (1 # 10))];
      destruct (Py.eq _ 0 && Py.eq _ 0); apply clamp_between; lia.
Qed.

Lemma score_3_bounds (features : gmap string Q) : 5 <= score_3 features <= 20.
Proof.
  unfold score_3. cbv zeta.
  destruct (Py.truthy_opt (features !! "has_green"));
    destruct (Py.truthy_opt (features !! "has_social"));
    destruct (Py.truthy_opt (features !! "has_innovation"));
    simpl; unfold clamp; lia.
Qed.

Lemma score_4_bounds (features : gmap string Q) : 5 <= score_4 features <= 18.
Proof.
  unfold score_4. cbv zeta.
  destruct (negb (Py.truthy (Py.get features "value_missing" 0%Q)));
    destruct (negb (Py.truthy (Py.get features "deadline_missing" 0%Q)));
    try (destruct (Py.gt _ 0);
         try (destruct (pow10_ge _ 30); try destruct (pow10_ge _ 15)));
    apply clamp_between; lia.
Qed.

(** The loop over the flags subtracts the weights of the flags. *)
Lemma flag_penalty_fold (integrity_flags : list (string * string * string)) :
  forall s : Z,
    fold_left flag_penalty integrity_flags s
    = s - foldr Z.add 0 (map flag_weight integrity_flags).
Proof.
  induction integrity_flags as [|[[name description] severity] rest IH];
    intros s; cbn [fold_left map foldr].
  - lia.
  - rewrite IH. unfold flag_penalty, flag_weight.
    destruct (Py.str_in severity ["high"; "HIGH"]);
      [|destruct (Py.str_in severity ["medium"; "MEDIUM"])]; lia.
Qed.

Lemma flag_weight_nonneg (flag : string * string * string) :
  0 <= flag_weight flag <= 6.
Proof.
  destruct flag as [[name description] severity]. unfold flag_weight.
  destruct (Py.str_in severity ["high"; "HIGH"]);
    [|destruct (Py.str_in severity ["medium"; "MEDIUM"])]; lia.
Qed.

Lemma flag_weights_nonneg (integrity_flags : list (string * string * string)) :
  0 <= foldr Z.add 0 (map flag_weight integrity_flags).
Proof.
  induction integrity_flags as [|flag rest IH]; cbn [map foldr]; [lia|].
  pose proof (flag_weight_nonneg flag). lia.
Qed.

(** The buyer part of the Integrity dimension, on the score after the flags. *)
Lemma score_5_shape (buyer_profile : option (gmap string Q))
    (integrity_flags : list (string * string * string)) :
  exists buyer_penalty : Z,
    0 <= buyer_penalty <= 5
    /\ forall flags : list (string * string * string),
         score_5 buyer_profile flags
         = clamp (16 - foldr Z.add 0 (map flag_weight flags) - buyer_penalty).
Proof.
  assert (Hfold : forall flags : list (string * string * string),
             (if Py.list_truthy flags then fold_left flag_penalty flags 16 else 16)
             = 16 - foldr Z.add 0 (map flag_weight flags)).
  { intros flags. destruct flags as [|f fl]; [reflexivity|].
    simpl Py.list_truthy. cbv iota. apply flag_penalty_fold. }
  unfold score_5. cbv zeta.
  destruct buyer_profile as [profile|].
  - destruct (Py.dict_truthy profile).
    + destruct (Py.ge (Py.get profile "vako_disputes" 0%Q) 3);
        destruct (Py.gt (Py.get profile "single_bidder_rate" 0%Q) (1 # 2)).
      * exists 5. split; [lia|]. intros flags. rewrite Hfold. f_equal. lia.
      * exists 3. split; [lia|]. intros flags. rewrite Hfold. f_equal.
      * exists 2. split; [lia|]. intros flags. rewrite Hfold. f_equal.
      * exists 0. split; [lia|]. intros flags. rewrite Hfold. f_equal. lia.
    + exists 0. split; [lia|]. intros flags. rewrite Hfold. f_equal. lia.
  - exists 0. split; [lia|]. intros flags. rewrite Hfold. f_equal. lia.
Qed.

Lemma score_5_bounds (buyer_profile : option (gmap string Q))
    (integrity_flags : list (string * string * string)) :
  0 <= score_5 buyer_profile integrity_flags <= 16.
Proof.
  destruct (score_5_shape buyer_profile integrity_flags) as (bp & Hbp & ->).
  pose proof (flag_weights_nonneg integrity_flags). unfold clamp. lia.
Qed.

(** X18: the overall score always lies between 14 and 89: Criteria Quality
    is between 4 and 15, Strategic Value at least 5, Transparency between 5
    and 18, and Integrity & Governance at most 16. *)
Theorem quality_scores_tight_bounds (features : gmap string Q)
    (procedure contract_type sector : string)
    (buyer_profile : option (gmap string Q))
    (integrity_flags : list (string * string * string)) :
  4 <= score_2 features contract_type <= 15
  /\ 5 <= score_3 features <= 20
  /\ 5 <= score_4 features <= 18
  /\ 0 <= score_5 buyer_profile integrity_flags <= 16
  /\ 14 <= overall_score
             (compute_quality_assessment features procedure contract_type
                sector buyer_profile integrity_flags) <= 89.
Proof.
  pose proof (score_1_range features procedure).
  pose proof (score_2_bounds features contract_type).
  pose proof (score_3_bounds features).
  pose proof (score_4_bounds features).
  pose proof (score_5_bounds buyer_profile integrity_flags).
  repeat split; try lia;
    cbv [compute_quality_assessment overall_score sum_scores fold_left snd score];
    lia.
Qed.

(** Both ends are reached. *)
Example quality_score_extremes :
  overall_score
    (compute_quality_assessment
       {[ "tenders_received" := 6%Q; "price_weight" := 60%Q;
          "quality_weight" := 40%Q; "has_green" := 1%Q; "has_social" := 1%Q;
          "has_innovation" := 1%Q; "log_deadline_days" := 2%Q ]}
       "open" "services" "IT" None []) = 89
  /\ overall_score
       (compute_quality_assessment
          {[ "tenders_received" := 1%Q; "price_weight" := 100%Q;
             "value_missing" := 1%Q; "log_deadline_days" := 1%Q ]}
          "oth-single" "services" "IT"
          (Some {[ "vako_disputes" := 4%Q; "single_bidder_rate" := (9 # 10)%Q ]})
          [("Political Donor Link", "", "high");
           ("Hidden Ownership Concentration", "", "high")]) = 14.
Proof. split; reflexivity. Qed.

(** X19: the Integrity & Governance score does not depend on the order of
    the integrity flags. *)
Theorem integrity_score_order_independent
    (buyer_profile : option (gmap string Q))
    (flags flags' : list (string * string * string)) :
  Permutation flags flags' ->
  score_5 buyer_profile flags = score_5 buyer_profile flags'.
Proof.
  intros Hperm.
  destruct (score_5_shape buyer_profile flags) as (bp & _ & Hshape).
  rewrite !Hshape. do 3 f_equal.
  induction Hperm; simpl; lia.
Qed.

Lemma integrity_score_order_independent_witness :
  score_5 None [("CPV Price Anomaly", "", "medium");
                ("Political Donor Link", "", "high")]
  = score_5 None [("Political Donor Link", "", "high");
                  ("CPV Price Anomaly", "", "medium")].
Proof.
  apply (integrity_score_order_independent None
           [("CPV Price Anomaly", "", "medium");
            ("Political Donor Link", "", "high")]
           [("Political Donor Link", "", "high");
            ("CPV Price Anomaly", "", "medium")]).
  apply perm_swap.
Defined.

(** X20: more integrity flags never raise the Integrity & Governance score,
    and flags of a severity other than high or medium leave it unchanged. *)
Theorem integrity_score_decreases_with_flags
    (buyer_profile : option (gmap string Q))
    (flags more : list (string * string * string)) :
  score_5 buyer_profile (flags ++ more) <= score_5 buyer_profile flags
  /\ (Forall (fun f => Py.str_in (snd f) ["high"; "HIGH"; "medium"; "MEDIUM"]
                       = false) more ->
      score_5 buyer_profile (flags ++ more) = score_5 buyer_profile flags).
Proof.
  destruct (score_5_shape buyer_profile flags) as (bp & _ & Hshape).
  rewrite !Hshape, map_app, foldr_app.
  assert (Hsplit : forall (l : list Z) (z : Z),
             foldr Z.add z l = foldr Z.add 0 l + z).
  { induction l as [|x l IH]; intros z; simpl; [lia|]. rewrite IH. lia. }
  rewrite (Hsplit (map flag_weight flags)).
  pose proof (flag_weights_nonneg more) as Hmore.
  split.
  - apply clamp_mono. lia.
  - intros Hlow.
    assert (H0 : foldr Z.add 0 (map flag_weight more) = 0).
    { clear Hmore. induction Hlow as [|[[name description] severity] rest Hf _ IH];
        simpl; [reflexivity|].
      rewrite IH. simpl in Hf. unfold Py.str_in in Hf. simpl in Hf.
      unfold Py.str_in. simpl.
      destruct (String.eqb severity "high"); [discriminate|].
      destruct (String.eqb severity "HIGH"); [discriminate|].
      destruct (String.eqb severity "medium"); [discriminate|].
      destruct (String.eqb severity "MEDIUM"); [discriminate|].
      reflexivity. }
    rewrite H0. f_equal. lia.
Qed.

(** X21: the colour of a severity in the report tells its weight in the
    Integrity dimension: red is 6 points, amber 3, green none. *)
Theorem severity_colour_and_weight (s : Z) (name description severity : string) :
  (_severity_color severity = (RED, LIGHT_RED)
   /\ flag_penalty s (name, description, severity) = s - 6)
  \/ (_severity_color severity = (AMBER, LIGHT_AMBER)
      /\ flag_penalty s (name, description, severity) = s - 3)
  \/ (_severity_color severity = (GREEN, LIGHT_GREEN)
      /\ flag_penalty s (name, description, severity) = s).
Proof.
  unfold _severity_color, flag_penalty.
  destruct (Py.str_in severity ["high"; "HIGH"]);
    [|destruct (Py.str_in severity ["medium"; "MEDIUM"])]; auto.
Qed.

End RubricMore.

(** ** The legal compliance checklist of the report *)

Section ReviewFacts.
Import PdfReport Parts.
Local Open Scope Z_scope.

(** The shape of a review: one item for each of the first four checks, then
    at most one item on strategic criteria. *)
Lemma review_shape (features : gmap string Q)
    (procedure contract_type sector : string) :
  exists (s1 s2 s4 : string) (n1 n2 n4 : review_note)
         (tail : list review_item),
    _build_compliance_review features procedure contract_type sector
    = [ ("Procedure selection (RHS 49)", s1, n1);
        ("Evaluation criteria (RHS 85)", s2, n2);
        ("Estimated value publication (RHS 23)",
          if value_published features then "pass" else "warning",
          if value_published features then ValueIsPublished
          else ValueNotPublished);
        ("Submission deadline (RHS 93)", s4, n4) ] ++ tail
    /\ In s1 ["pass"; "warning"] /\ In s2 ["pass"; "warning"]
    /\ In s4 ["pass"; "warning"]
    /\ ((any_strategic features = true
         /\ exists strategic,
              tail = [("Strategic procurement (RHS 77-79)", "pass",
                        StrategicIncluded strategic)])
        \/ (any_strategic features = false
            /\ (tail = [("Strategic procurement (RHS 77-79)", "warning",
                          StrategicMissing)]
                \/ tail = []))).
Proof.
  unfold _build_compliance_review, value_published, any_strategic. cbv zeta.
  set (g1 := if Py.str_in procedure _ then _ else _).
  set (g2 := if review_is_price_only _ _ && _ && _ then _ else _).
  set (g4 := if Py.gt _ 0 then _ else _).
  set (g5 := if _ || _ || _ then _ else _).
  assert (H1 : exists s n, g1 = [("Procedure selection (RHS 49)", s, n)]
                           /\ In s ["pass"; "warning"]).
  { subst g1. destruct (Py.str_in procedure _);
      [destruct (review_value_gt _ _)|destruct (String.eqb procedure "open")];
      do 2 eexists; (split; [reflexivity|simpl; auto]). }
  assert (H2 : exists s n, g2 = [("Evaluation criteria (RHS 85)", s, n)]
                           /\ In s ["pass"; "warning"]).
  { subst g2. destruct (review_is_price_only _ _ && _ && _);
      [|destruct (Py.eq _ 0 && Py.eq _ 0)];
      do 2 eexists; (split; [reflexivity|simpl; auto]). }
  assert (H4 : exists s n, g4 = [("Submission deadline (RHS 93)", s, n)]
                           /\ In s ["pass"; "warning"]).
  { subst g4. destruct (Py.gt _ 0); [destruct (negb _ && _)|];
      do 2 eexists; (split; [reflexivity|simpl; auto]). }
  destruct H1 as (s1 & n1 & -> & Hs1). destruct H2 as (s2 & n2 & -> & Hs2).
  destruct H4 as (s4 & n4 & -> & Hs4).
  exists s1, s2, s4, n1, n2, n4, g5.
  split; [|split; [exact Hs1|split; [exact Hs2|split; [exact Hs4|]]]].
  - destruct (Py.truthy (Py.get features "value_missing" 0%Q)); reflexivity.
  - subst g5. destruct (_ || _ || _).
    + left. split; [reflexivity|]. eexists. reflexivity.
    + right. split; [reflexivity|].
      destruct (review_value_gt _ _); auto.
Qed.

(** X22: a compliance review always lists the procedure, the evaluation
    criteria, the value publication and the deadline, in this order,
    followed by at most one item on strategic criteria; every status is
    pass or warning. *)
Theorem review_has_four_mandatory_items (features : gmap string Q)
    (procedure contract_type sector : string) :
  let items := _build_compliance_review features procedure contract_type
                 sector in
  (review_titles items
   = [ "Procedure selection (RHS 49)"; "Evaluation criteria (RHS 85)";
       "Estimated value publication (RHS 23)"; "Submission deadline (RHS 93)" ]
   \/ review_titles items
      = [ "Procedure selection (RHS 49)"; "Evaluation criteria (RHS 85)";
          "Estimated value publication (RHS 23)"; "Submission deadline (RHS 93)";
          "Strategic procurement (RHS 77-79)" ])
  /\ Forall (fun i => In (snd (fst i)) ["pass"; "warning"]) items.
Proof.
  cbv zeta.
  destruct (review_shape features procedure contract_type sector)
    as (s1 & s2 & s4 & n1 & n2 & n4 & tail & -> & Hs1 & Hs2 & Hs4 & Htail).
  assert (Hs3 : In (if value_published features then "pass" else "warning")
                  ["pass"; "warning"]).
  { destruct (value_published features); simpl; auto. }
  destruct Htail as [[_ (strategic & ->)]|[_ [->| ->]]].
  - split; [right; reflexivity|].
    repeat (apply List.Forall_cons; [assumption || (simpl; auto)|]).
    apply List.Forall_nil.
  - split; [right; reflexivity|].
    repeat (apply List.Forall_cons; [assumption || (simpl; auto)|]).
    apply List.Forall_nil.
  - split; [left; reflexivity|].
    repeat (apply List.Forall_cons; [assumption || (simpl; auto)|]).
    apply List.Forall_nil.
Qed.

Lemma any_strategic_score_3 (features : gmap string Q) :
  any_strategic features = true <-> 12 <= score_3 features.
Proof.
  unfold any_strategic, score_3. cbv zeta.
  destruct (Py.truthy_opt (features !! "has_green"));
    destruct (Py.truthy_opt (features !! "has_social"));
    destruct (Py.truthy_opt (features !! "has_innovation"));
    simpl; unfold clamp; split; (reflexivity || lia || discriminate).
Qed.

(** X23: the review and the rubric agree. The review warns about the value
    publication exactly when the rubric counts the value as not published,
    and it reports strategic criteria as included exactly when the Strategic
    Value score is at least 12. *)
Theorem review_agrees_with_rubric (features : gmap string Q)
    (procedure contract_type sector : string) :
  let items := _build_compliance_review features procedure contract_type
                 sector in
  (In ("Estimated value publication (RHS 23)", "warning", ValueNotPublished) items
   <-> value_published features = false)
  /\ ((exists strategic,
         In ("Strategic procurement (RHS 77-79)", "pass",
              StrategicIncluded strategic) items)
      <-> 12 <= score_3 features).
Proof.
  cbv zeta. rewrite <- any_strategic_score_3.
  destruct (review_shape features procedure contract_type sector)
    as (s1 & s2 & s4 & n1 & n2 & n4 & tail & -> & _ & _ & _ & Htail).
  split.
  - destruct (value_published features); simpl.
    + split; [|discriminate].
      intros [H|[H|[H|[H|H]]]]; try discriminate.
      destruct Htail as [[_ (strategic & ->)]|[_ [->| ->]]]; simpl in H;
        intuition discriminate.
    + split; [reflexivity|]. intros _. auto.
  - destruct Htail as [[Hany (strategic & ->)]|[Hany [->| ->]]]; rewrite Hany.
    + split; [reflexivity|]. intros _. exists strategic. simpl. auto 6.
    + split; [|discriminate]. intros (strategic & H). simpl in H.
      destruct (value_published features); intuition discriminate.
    + split; [|discriminate]. intros (strategic & H). simpl in H.
      destruct (value_published features); intuition discriminate.
Qed.

End ReviewFacts.

(** ** Risk tiers *)

Section RiskTiers.
Import App Parts.

(** X24: the tier colour and the tier label of a score always belong to the
    same tier. *)
Theorem risk_color_matches_label (score : Q) :
  risk_color score = tier_color (risk_label score)
  /\ In (risk_label score) ["Low"; "Moderate"; "Elevated"; "High"].
Proof.
  unfold risk_color, risk_label.
  destruct (Py.ge score (15 # 100)); [simpl; auto 6|].
  destruct (Py.ge score (8 # 100)); [simpl; auto 6|].
  destruct (Py.ge score (4 # 100)); simpl; auto 6.
Qed.

Lemma ge_mono (a b c : Q) : (a <= b)%Q -> Py.ge a c = true -> Py.ge b c = true.
Proof. rewrite !ge_spec. intros H1 H2. eapply Qle_trans; eauto. Qed.

(** X25: a higher score never falls in a lower tier. *)
Theorem risk_label_monotone (s1 s2 : Q) :
  (s1 <= s2)%Q ->
  tier_rank (risk_label s1) <= tier_rank (risk_label s2).
Proof.
  intros Hle. unfold risk_label.
  destruct (Py.ge s1 (15 # 100)) eqn:E1.
  { rewrite (ge_mono _ _ _ Hle E1). reflexivity. }
  destruct (Py.ge s1 (8 # 100)) eqn:E2.
  { rewrite (ge_mono _ _ _ Hle E2).
    destruct (Py.ge s2 (15 # 100)); unfold tier_rank; simpl; lia. }
  destruct (Py.ge s1 (4 # 100)) eqn:E3.
  { rewrite (ge_mono _ _ _ Hle E3).
    destruct (Py.ge s2 (15 # 100)); [unfold tier_rank; simpl; lia|].
    destruct (Py.ge s2 (8 # 100)); unfold tier_rank; simpl; lia. }
  destruct (Py.ge s2 (15 # 100)); [unfold tier_rank; simpl; lia|].
  destruct (Py.ge s2 (8 # 100)); [unfold tier_rank; simpl; lia|].
  destruct (Py.ge s2 (4 # 100)); unfold tier_rank; simpl; lia.
Qed.

Lemma risk_label_monotone_witness :
  tier_rank (risk_label (5 # 100)) <= tier_rank (risk_label (9 # 100)).
Proof.
  apply (risk_label_monotone (5 # 100) (9 # 100)). discriminate.
Defined.

End RiskTiers.

(** ** Titles *)

Section TitleFacts.
Import App Parts.

Lemma length_slice_to (n : nat) (s : string) :
  String.length (Py.slice_to n s) <= n
  /\ String.length (Py.slice_to n s) <= String.length s.
Proof.
  revert s. induction n as [|n IH]; intros s; simpl; [lia|].
  destruct s as [|c s']; simpl; [lia|]. destruct (IH s'). lia.
Qed.

Lemma length_lstrip_by (p : ascii -> bool) (s : string) :
  String.length (Py.lstrip_by p s) <= String.length s.
Proof.
  induction s as [|c s' IH]; simpl; [lia|].
  destruct (p c); simpl; lia.
Qed.

Lemma length_rstrip_by (p : ascii -> bool) (s : string) :
  String.length (Py.rstrip_by p s) <= String.length s.
Proof.
  induction s as [|c s' IH]; simpl; [lia|].
  destruct (Py.rstrip_by p s') as [|c' r]; [destruct (p c)|]; simpl in *; lia.
Qed.

Lemma length_strip (s : string) :
  String.length (Py.strip s) <= String.length s.
Proof.
  unfold Py.strip.
  pose proof (length_lstrip_by Py.is_space (Py.rstrip_by Py.is_space s)).
  pose proof (length_rstrip_by Py.is_space s). lia.
Qed.

Lemma length_before_last_space (s h : string) :
  Py.before_last_space s = Some h -> String.length h <= String.length s.
Proof.
  revert h. induction s as [|c s' IH]; intros h; simpl; [discriminate|].
  destruct (Py.before_last_space s') as [h'|].
  - intros [= <-]. simpl. specialize (IH h' eq_refl). lia.
  - destruct (Ascii.eqb c " "); [|discriminate]. intros [= <-]. simpl. lia.
Qed.

Lemma length_rsplit1_head (s : string) :
  String.length (Py.rsplit1_head s) <= String.length s.
Proof.
  unfold Py.rsplit1_head.
  destruct (Py.before_last_space s) as [h|] eqn:E; simpl; [|lia].
  apply length_before_last_space. exact E.
Qed.

Lemma length_append_str (a b : string) :
  String.length (a +:+ b) = String.length a + String.length b.
Proof. induction a as [|c a IH]; simpl; [reflexivity|]. rewrite IH. reflexivity. Qed.

Lemma length_match_prefix_ci (p s r : string) :
  match_prefix_ci p s = Some r -> String.length r <= String.length s.
Proof.
  revert s. induction p as [|a p IH]; intros s; simpl.
  - destruct s; intros [= <-]; lia.
  - destruct s as [|b s']; [discriminate|].
    destruct (Re.eq_ci b a); [|discriminate].
    intros H. apply IH in H. simpl. lia.
Qed.

(** Removing the boilerplate never makes the title longer. *)
Lemma length_sub_boilerplate (raw_title : string) :
  String.length (sub_boilerplate raw_title) <= String.length raw_title.
Proof.
  unfold sub_boilerplate.
  destruct (match_prefix_ci "Hanke objekt" raw_title) as [r1|] eqn:E1; [|lia].
  apply length_match_prefix_ci in E1.
  destruct (match_prefix_ci " on" (Py.lstrip_by is_letter r1)) as [r2|] eqn:E2;
    [|lia].
  apply length_match_prefix_ci in E2.
  pose proof (length_lstrip_by is_letter r1).
  destruct r2 as [|c r3]; [lia|].
  destruct (Py.is_space c); [|lia].
  pose proof (length_lstrip_by Py.is_space r3). simpl in *. lia.
Qed.

Lemma find_from_bound (sep s : string) (i : Z) :
  (0 <= i)%Z ->
  (Py.find_from sep s i <= i + Z.of_nat (String.length s))%Z.
Proof.
  revert i. induction s as [|c s' IH]; intros i Hi;
    cbn [Py.find_from String.length].
  - destruct (Py.startswith sep ""); lia.
  - destruct (Py.startswith sep (String c s')); [lia|].
    specialize (IH (i + 1)%Z). lia.
Qed.

Lemma first_cut_bounds (text : string) (max_len : nat) (seps : list string)
    (pos : nat) :
  first_cut text max_len seps = Some pos ->
  30 < pos < max_len /\ pos <= String.length text.
Proof.
  induction seps as [|sep rest IH]; simpl; [discriminate|].
  destruct ((30 <? Py.find sep text)%Z && (Py.find sep text <? Z.of_nat max_len)%Z)
    eqn:E; [|exact IH].
  apply andb_true_iff in E. destruct E as [E1 E2].
  apply Z.ltb_lt in E1, E2. intros [= <-].
  pose proof (find_from_bound sep text 0 ltac:(lia)). unfold Py.find in *. lia.
Qed.

Lemma clean_title_bounds (raw_title : string) (max_len : nat) :
  String.length (_clean_title raw_title max_len) <= max_len + 3
  /\ String.length (_clean_title raw_title max_len)
     <= String.length raw_title + 3.
Proof.
  unfold _clean_title.
  destruct (negb (Py.str_truthy raw_title)); [simpl; lia|]. cbv zeta.
  pose proof (length_sub_boilerplate raw_title) as Hsub.
  destruct (first_cut _ max_len TITLE_SEPARATORS) as [pos|] eqn:Ecut.
  - apply first_cut_bounds in Ecut.
    pose proof (length_strip (Py.slice_to pos (sub_boilerplate raw_title))).
    pose proof (length_slice_to pos (sub_boilerplate raw_title)). lia.
  - destruct (String.length (sub_boilerplate raw_title) <=? max_len)%nat eqn:El.
    + apply Nat.leb_le in El.
      pose proof (length_strip (sub_boilerplate raw_title)). lia.
    + rewrite length_append_str. simpl.
      pose proof (length_rstrip_by is_trailing_punctuation
                    (Py.rsplit1_head
                       (Py.slice_to max_len (sub_boilerplate raw_title)))).
      pose proof (length_rsplit1_head
                    (Py.slice_to max_len (sub_boilerplate raw_title))).
      pose proof (length_slice_to max_len (sub_boilerplate raw_title)). lia.
Qed.

(** X26: a short title is never longer than [max_len] plus the three dots
    of a truncation, nor longer than the raw title plus three. *)
Theorem clean_title_length (raw_title : string) (max_len : nat) :
  String.length (_clean_title raw_title max_len) <= max_len + 3
  /\ String.length (_clean_title raw_title max_len)
     <= String.length raw_title + 3.
Proof.
  pose proof (clean_title_bounds raw_title max_len) as [Hmax Hraw].
  split; [exact Hmax | exact Hraw].
Qed.

Lemma first_cut_short (text : string) (max_len : nat) (seps : list string) :
  String.length text <= 30 -> first_cut text max_len seps = None.
Proof.
  intros Hlen.
  destruct (first_cut text max_len seps) as [pos|] eqn:E; [|reflexivity].
  apply first_cut_bounds in E. lia.
Qed.

(** X27: a raw title of at most 30 characters is never cut at a separator
    nor truncated: the short title is the raw title without the boilerplate
    prefix and without surrounding whitespace. *)
Theorem clean_title_short (raw_title : string) (max_len : nat) :
  String.length raw_title <= 30 -> 30 <= max_len ->
  _clean_title raw_title max_len = Py.strip (sub_boilerplate raw_title).
Proof.
  intros Hraw Hmax. unfold _clean_title.
  pose proof (length_sub_boilerplate raw_title) as Hsub.
  destruct raw_title as [|c raw']; [reflexivity|].
  simpl negb. cbv iota zeta.
  rewrite first_cut_short by lia.
  destruct (String.length _ <=? max_len)%nat eqn:El; [reflexivity|].
  apply Nat.leb_gt in El. lia.
Qed.

Lemma clean_title_short_witness :
  _clean_title "Hanke objektiks on  bussid " 60
  = Py.strip (sub_boilerplate "Hanke objektiks on  bussid ").
Proof.
  apply (clean_title_short "Hanke objektiks on  bussid " 60); simpl; lia.
Defined.

(** X28: the full title is the title of the titles file whenever that one
    is not empty; the short title is never longer than 123 characters; and
    without a full title the short title is empty. *)
Theorem procurement_title_lookup (rhr_id : string)
    (v3_lookup : gmap string (gmap string string))
    (disputes_data : gmap string (gmap string (gmap string (gmap string string))))
    (titles_data : gmap string (gmap string string)) :
  let result := _get_procurement_title rhr_id v3_lookup disputes_data
                  titles_data in
  String.length (fst result) <= 123
  /\ fst result = _clean_title (snd result) 120
  /\ (snd result = "" -> fst result = "")
  /\ (forall (t : gmap string string) (title : string),
        titles_data !! rhr_id = Some t -> t !! "title" = Some title ->
        title <> "" -> snd result = title).
Proof.
  cbv zeta. unfold _get_procurement_title. cbv zeta. simpl fst. simpl snd.
  split; [apply (clean_title_bounds _ 120)|].
  split; [reflexivity|]. split.
  - intros ->. reflexivity.
  - intros t title Ht Htitle Hne.
    assert (H0 : Py.get (Py.get titles_data rhr_id ∅) "title" "" = title).
    { unfold Py.get. rewrite Ht. simpl. rewrite Htitle. reflexivity. }
    rewrite !H0. destruct title as [|c title']; [congruence|]. reflexivity.
Qed.

End TitleFacts.

(** ** Fix recommendations *)

Section RecommendationFacts.
Import App Parts.

Lemma lower_char_idempotent (c : ascii) :
  Py.lower_char (Py.lower_char c) = Py.lower_char c.
Proof. destruct c as [[] [] [] [] [] [] [] []]; reflexivity. Qed.

Lemma lower_idempotent (s : string) : Py.lower (Py.lower s) = Py.lower s.
Proof.
  induction s as [|c s IH]; simpl; [reflexivity|].
  rewrite lower_char_idempotent, IH. reflexivity.
Qed.

(** X29: the recommendation for an issue depends neither on the case of the
    issue text nor on the evidence, and it is one of seven fixed texts. *)
Theorem issue_recommendation_ignores_case (issue_text evidence evidence' : string) :
  _issue_recommendation (Py.lower issue_text) evidence'
  = _issue_recommendation issue_text evidence
  /\ In (_issue_recommendation issue_text evidence)
       [ TURNOVER_FIX; QUALIFICATION_FIX; SPECIFICATION_FIX; CRITERIA_FIX;
         BRAND_FIX; PRICE_ONLY_FIX; GENERIC_FIX ].
Proof.
  split.
  - unfold _issue_recommendation. rewrite lower_idempotent. reflexivity.
  - unfold _issue_recommendation. cbv zeta.
    repeat match goal with
           | |- In (if ?c then _ else _) _ => destruct c; [simpl; auto 8|]
           end.
    simpl. auto 8.
Qed.

Example issue_recommendation_examples :
  _issue_recommendation "Disproportionate TURNOVER requirement" "" = TURNOVER_FIX
  /\ _issue_recommendation "Possible vendor lock-in" "" = BRAND_FIX
  /\ _issue_recommendation "Short deadline" "" = GENERIC_FIX.
Proof. repeat split. Qed.

End RecommendationFacts.
